(** * VeoVidGen: prompt -> generated video -> Drive upload

    A shallow embedding of [VeoVidGen.py] and the properties of its three
    code paths: [generate_veo_video], [upload_to_drive] and the file name
    derivation of [main].

    Modelling conventions.
    - A Python [str] is a [string] whose characters are the code points
      below 256; [lower] is Python's [str.lower] on that range.
    - [bytes] is [list byte]; a value that may be Python's [None] is an
      [option].
    - Calls into the Gemini, requests, Cloud Storage and Drive libraries are
      answers read from a record of oracles; every call and every [print]
      is appended to an event trace.
    - Exceptions are the [Exception] subclasses the libraries and the
      interpreter raise; interrupts of the process are not modelled. *)

From Stdlib Require Import Ascii String Strings.Byte Sorted.
From stdpp Require Import base strings list gmap pretty.

Local Open Scope stdpp_scope.

(** ** Python string operations *)

Module PyStr.

(** [str.lower] on one code point below 256: A-Z and the Latin-1 capitals
    (0xC0-0xDE without the multiplication sign 0xD7) move up by 32. *)
Definition lower_char (c : ascii) : ascii :=
  let n := N_of_ascii c in
  if ((65 <=? n) && (n <=? 90) || (192 <=? n) && (n <=? 222) && negb (n =? 215))%N
  then ascii_of_N (n + 32) else c.

Fixpoint lower (s : string) : string :=
  match s with
  | "" => ""
  | String c s' => String (lower_char c) (lower s')
  end.

(** [s.startswith(p)] *)
Definition startswith (s p : string) : bool := String.prefix p s.

(** [s.endswith(suf)]: [s] is [suf], or the tail of [s] ends with it. *)
Fixpoint endswith (s suf : string) : bool :=
  String.eqb s suf ||
  match s with
  | "" => false
  | String _ s' => endswith s' suf
  end.

(** [s.endswith(t)] for a tuple [t] of suffixes. *)
Definition endswith_any (s : string) (sufs : list string) : bool :=
  existsb (endswith s) sufs.

(** [s[:n]] *)
Fixpoint slice_to (n : nat) (s : string) : string :=
  match n, s with
  | S n', String c s' => String c (slice_to n' s')
  | _, _ => ""
  end.

(** [s[n:]] *)
Fixpoint slice_from (n : nat) (s : string) : string :=
  match n, s with
  | S n', String _ s' => slice_from n' s'
  | _, _ => s
  end.

(** [s.replace(old, new)] for one-character [old] and [new]. *)
Fixpoint replace (old new : ascii) (s : string) : string :=
  match s with
  | "" => ""
  | String c s' =>
      String (if Ascii.eqb c old then new else c) (replace old new s')
  end.

(** [s.split(sep)] for a one-character separator: never the empty list. *)
Fixpoint split (sep : ascii) (s : string) : list string :=
  match s with
  | "" => [""]
  | String c s' =>
      if Ascii.eqb c sep then "" :: split sep s'
      else match split sep s' with
           | x :: xs => String c x :: xs
           | [] => [String c ""]
           end
  end.

(** [s.split(sep, 1)]: cut at the first separator only. *)
Fixpoint split1 (sep : ascii) (s : string) : list string :=
  match s with
  | "" => [""]
  | String c s' =>
      if Ascii.eqb c sep then [""; s']
      else match split1 sep s' with
           | x :: xs => String c x :: xs
           | [] => [String c ""]
           end
  end.

(** [l[-1]] on the result of a [split]. *)
Definition last_item (l : list string) : string := List.last l "".

(** Truth value of a string: the empty string is falsy. *)
Definition truthy (s : string) : bool := negb (String.eqb s "").

(** [str(x)] inside an f-string for a value that may be [None]. *)
Definition str_of_option (o : option string) : string :=
  match o with Some s => s | None => "None" end.

End PyStr.

(** ** Configuration constants of the module *)

Definition VEO_MODEL_NAME : string := "models/veo-1.0".
Definition DEFAULT_VIDEO_MIME_TYPE : string := "video/mp4".

(** ** File name derivation of [main] *)

Definition known_video_extensions : list string :=
  [".mp4"; ".mov"; ".avi"; ".webm"; ".mkv"].

(** [output_filename.lower().endswith(known_video_extensions)] *)
Definition has_known_extension (output_filename : string) : bool :=
  PyStr.endswith_any (PyStr.lower output_filename) known_video_extensions.

(** [video_mime_type.split('/')[-1]] *)
Definition mime_subtype (video_mime_type : string) : string :=
  PyStr.last_item (PyStr.split "/" video_mime_type).

(** The body of [if args.output_filename:]. *)
Definition explicit_output_filename (output_filename video_mime_type : string)
  : string :=
  if negb (has_known_extension output_filename) then
    let inferred_ext := mime_subtype video_mime_type in
    if PyStr.truthy inferred_ext && negb (String.eqb inferred_ext "*")
    then output_filename +:+ "." +:+ inferred_ext
    else output_filename +:+ ".mp4"
  else output_filename.

(** The [else] branch: [timestamp] is the value of
    [time.strftime("%Y%m%d-%H%M%S")]. *)
Definition synthesized_output_filename (prompt video_mime_type timestamp : string)
  : string :=
  let ext :=
    if PyStr.truthy video_mime_type
       && negb (String.eqb (mime_subtype video_mime_type) "*")
    then mime_subtype video_mime_type else "mp4" in
  "veo_video_" +:+ PyStr.replace " " "_" (PyStr.slice_to 20 prompt)
    +:+ "_" +:+ timestamp +:+ "." +:+ ext.

(** "Determine output filename": [output_filename] is [args.output_filename],
    [None] when the option is not on the command line. An empty string is
    falsy, so [-o ''] takes the [else] branch as well. *)
Definition determine_output_filename
    (output_filename : option string) (prompt video_mime_type timestamp : string)
  : string :=
  match output_filename with
  | Some name =>
      if PyStr.truthy name then explicit_output_filename name video_mime_type
      else synthesized_output_filename prompt video_mime_type timestamp
  | None => synthesized_output_filename prompt video_mime_type timestamp
  end.

(** ** Effects: an event trace with exceptions *)

Inductive ExnClass :=
| RequestException   (* requests.exceptions.RequestException and subclasses *)
| AttributeError
| ValueError
| OtherException.    (* any other subclass of Exception *)

Record Exn := MkExn { exn_class : ExnClass; exn_msg : string }.

(** What the operator and the outside world observe, in order. *)
Inductive Event :=
| EPrint (line : string)
| ECall (callee : string) (args : list string).

Inductive Outcome (A : Type) :=
| Returned (a : A)
| Raised (e : Exn)
| OutOfFuel.
Arguments Returned {A} a.
Arguments Raised {A} e.
Arguments OutOfFuel {A}.

(** A run: the events so far and how the computation ended. *)
Record M (A : Type) := Run { trace : list Event; outcome : Outcome A }.
Arguments Run {A} trace outcome.
Arguments trace {A} m.
Arguments outcome {A} m.

#[global] Instance M_ret : MRet M := λ A a, Run [] (Returned a).

#[global] Instance M_bind : MBind M := λ A B f m,
  match outcome m with
  | Returned a => Run (trace m ++ trace (f a)) (outcome (f a))
  | Raised e => Run (trace m) (Raised e)
  | OutOfFuel => Run (trace m) OutOfFuel
  end.

Definition emit (ev : Event) : M unit := Run [ev] (Returned tt).
Definition print (line : string) : M unit := emit (EPrint line).
Definition raise {A} (e : Exn) : M A := Run [] (Raised e).
Definition out_of_fuel {A} : M A := Run [] OutOfFuel.

(** A library call: it is recorded, then answers or raises. *)
Definition call {A} (callee : string) (args : list string) (answer : Exn + A)
  : M A :=
  emit (ECall callee args);;
  match answer with inl e => raise e | inr a => mret a end.

(** [try: m  except C as e: h e], for the exceptions [C] selects. *)
Definition try_except {A} (m : M A) (catches : Exn → bool) (h : Exn → M A)
  : M A :=
  match outcome m with
  | Raised e =>
      if catches e then Run (trace m ++ trace (h e)) (outcome (h e)) else m
  | _ => m
  end.

(** [except Exception] *)
Definition any_exception (e : Exn) : bool := true.

(** [except requests.exceptions.RequestException] *)
Definition is_request_exception (e : Exn) : bool :=
  match exn_class e with RequestException => true | _ => false end.

Definition nl : string := String "010" "".

(** ** The Gemini response, as far as the code inspects it *)

(** An attribute of an object: not there ([hasattr] is false), there with
    value [None], or there with a value. *)
Inductive Attr (A : Type) :=
| Missing
| IsNone
| Has (a : A).
Arguments Missing {A}.
Arguments IsNone {A}.
Arguments Has {A} a.

Record FileData := { mime_type : option string; file_uri : option string }.
Record Part := { file_data : Attr FileData }.
Record Content := { parts : list Part; content_repr : string }.
Record Candidate := { content : option Content }.
Record Response := { candidates : list Candidate; response_repr : string }.

(** The collaborators of [generate_veo_video]. [requests_get] answers for
    [requests.get], [raise_for_status] and [.content] together;
    [download_as_bytes] for [client.bucket], [bucket.blob] and
    [blob.download_as_bytes]. *)
Record GeminiWorld := {
  generative_model : option Exn;
  generate_content : string -> Exn + Response;
  requests_installed : bool;
  requests_get : string -> Exn + list byte;
  storage_installed : bool;
  storage_client : option Exn;
  download_as_bytes : string -> string -> Exn + list byte
}.

Definition GenerationResult : Type := option (list byte) * option string.

(** Every failure path ends in [return None, None]. *)
Definition failure : M GenerationResult := mret (None, None).

(** [hasattr(part, 'file_data') and
     part.file_data.mime_type.startswith('video/')] *)
Definition part_is_video (part : Part) : M bool :=
  match file_data part with
  | Missing => mret false
  | IsNone =>
      raise (MkExn AttributeError "'NoneType' object has no attribute 'mime_type'")
  | Has fd =>
      match mime_type fd with
      | None =>
          raise (MkExn AttributeError "'NoneType' object has no attribute 'startswith'")
      | Some m => mret (PyStr.startswith m "video/")
      end
  end.

(** The [for part in ...: if ...: video_part = part; break] loop. *)
Fixpoint find_video_part (ps : list Part) : M (option Part) :=
  match ps with
  | [] => mret None
  | part :: rest =>
      b ← part_is_video part;
      if (b : bool) then mret (Some part) else find_video_part rest
  end.

(** [video_part.file_data] *)
Definition get_file_data (part : Part) : M FileData :=
  match file_data part with
  | Has fd => mret fd
  | IsNone =>
      raise (MkExn AttributeError "'NoneType' object has no attribute 'file_uri'")
  | Missing =>
      raise (MkExn AttributeError "'Part' object has no attribute 'file_data'")
  end.

(** [x or DEFAULT_VIDEO_MIME_TYPE] *)
Definition or_default (x : option string) (default : string) : string :=
  match x with
  | Some s => if PyStr.truthy s then s else default
  | None => default
  end.

(** [bucket_name, blob_name = file_uri[5:].split('/', 1)]: the split gives
    one or two items, and unpacking one item into two names raises. *)
Definition parse_gs_uri (file_uri : string) : M (string * string) :=
  match PyStr.split1 "/" (PyStr.slice_from 5 file_uri) with
  | [bucket_name; blob_name] => mret (bucket_name, blob_name)
  | _ => raise (MkExn ValueError "not enough values to unpack (expected 2, got 1)")
  end.

(** How a block inside a function ends: control falls through to the next
    statement with a value, or the function has executed its failure
    [return] ([return None, None] in [generate_veo_video], [return None] in
    [upload_to_drive]). *)
Inductive Flow (A : Type) :=
| Continue (a : A)
| ReturnNone.
Arguments Continue {A} a.
Arguments ReturnNone {A}.

(** Lines 182-186: the code after the scheme dispatch, reached unless a
    branch of the dispatch has returned. *)
Definition return_video (step : Flow (list byte)) (video_mime_type : string)
  : M GenerationResult :=
  match step with
  | ReturnNone => failure
  | Continue [] =>
      print "ERROR: Video bytes could not be retrieved after URI processing.";;
      failure
  | Continue video_bytes => mret (Some video_bytes, Some video_mime_type)
  end.

(** Scenario 1, lines 140-156. *)
Definition download_https (w : GeminiWorld) (file_uri : string)
  : M (Flow (list byte)) :=
  if negb (requests_installed w) then
    print "ERROR: The 'requests' library is required to download from HTTPS URIs but is not installed.";;
    print "Please install it: pip install requests";;
    mret ReturnNone
  else
    try_except
      (print ("Downloading from HTTPS: " +:+ file_uri);;
       video_bytes ← call "requests.get" [file_uri] (requests_get w file_uri);
       print ("Successfully downloaded video ("
              +:+ pretty (length (video_bytes : list byte))
              +:+ " bytes) from HTTPS URI.");;
       mret (Continue video_bytes))
      is_request_exception
      (λ e_req,
         print ("ERROR: Failed to download video from HTTPS URI '"
                +:+ file_uri +:+ "': " +:+ exn_msg e_req);;
         mret ReturnNone).

(** Scenario 2, lines 159-176. *)
Definition download_gcs (w : GeminiWorld) (file_uri : string)
  : M (Flow (list byte)) :=
  if negb (storage_installed w) then
    print "ERROR: The 'google-cloud-storage' library is required to download from GCS URIs (gs://) but is not installed.";;
    print "Please install it: pip install google-cloud-storage";;
    mret ReturnNone
  else
    try_except
      (print ("Downloading from GCS: " +:+ file_uri);;
       call "storage.Client" []
         (match storage_client w with Some e => inl e | None => inr tt end);;
       names ← parse_gs_uri file_uri;
       video_bytes ← call "blob.download_as_bytes" [names.1; names.2]
                       (download_as_bytes w names.1 names.2);
       print ("Successfully downloaded video ("
              +:+ pretty (length (video_bytes : list byte))
              +:+ " bytes) from GCS URI.");;
       mret (Continue video_bytes))
      any_exception
      (λ e_gcs,
         print ("ERROR: Failed to download video from GCS URI '"
                +:+ file_uri +:+ "': " +:+ exn_msg e_gcs);;
         print "Ensure you have 'gcloud auth application-default login' configured and permissions to access the GCS object.";;
         mret ReturnNone).

(** Lines 138-180: dispatch on the scheme of [file_uri]. *)
Definition download_video (w : GeminiWorld) (file_uri : option string)
  : M (Flow (list byte)) :=
  match file_uri with
  | None =>
      raise (MkExn AttributeError "'NoneType' object has no attribute 'startswith'")
  | Some u =>
      if PyStr.startswith u "https://" then download_https w u
      else if PyStr.startswith u "gs://" then download_gcs w u
      else
        print ("ERROR: Unrecognized or unsupported file URI scheme: " +:+ u);;
        print "The script currently supports 'https://' and 'gs://' URIs for generated videos.";;
        mret ReturnNone
  end.

(** Lines 113-116. *)
Definition no_candidates (response : Response) : M GenerationResult :=
  print "ERROR: No valid candidates or content parts found in the Gemini response.";;
  print ("Response details: " +:+ response_repr response);;
  failure.

(** Lines 118-186: from the scan of the parts to the final [return]. *)
Definition extract_video (w : GeminiWorld) (ct : Content) : M GenerationResult :=
  video_part ← find_video_part (parts ct);
  match video_part with
  | None =>
      print "ERROR: Could not find video data (as file_data) in the Gemini response.";;
      print ("Full response candidate content: " +:+ content_repr ct);;
      failure
  | Some part =>
      fd ← get_file_data part;
      let file_uri := file_uri fd in
      let video_mime_type := or_default (mime_type fd) DEFAULT_VIDEO_MIME_TYPE in
      print ("Video generation apparently successful. File URI: "
             +:+ PyStr.str_of_option file_uri
             +:+ ", MIME type: " +:+ video_mime_type);;
      print "Attempting to download video from URI...";;
      step ← download_video w file_uri;
      return_video step video_mime_type
  end.

(** Lines 111-186: the body of the outer [try]. *)
Definition request_and_extract (w : GeminiWorld) (prompt : string)
  : M GenerationResult :=
  response ← call "model.generate_content" [prompt] (generate_content w prompt);
  match candidates response with
  | [] => no_candidates response
  | c :: _ =>
      match content c with
      | None => no_candidates response
      | Some ct =>
          match parts ct with
          | [] => no_candidates response
          | _ :: _ => extract_video w ct
          end
      end
  end.

Definition generate_veo_video (w : GeminiWorld) (prompt gemini_api_key : string)
  : M GenerationResult :=
  print (nl +:+ "--- Generating Video for Prompt: '" +:+ prompt +:+ "' ---");;
  print ("Using Veo model: " +:+ VEO_MODEL_NAME);;
  call "genai.configure" [gemini_api_key] (inr tt);;
  model ← try_except
      (call "genai.GenerativeModel" [VEO_MODEL_NAME]
         (match generative_model w with Some e => inl e | None => inr tt end);;
       mret (Continue tt))
      any_exception
      (λ e,
         print ("ERROR: Could not initialize Veo model '" +:+ VEO_MODEL_NAME +:+ "'.");;
         print ("Details: " +:+ exn_msg e);;
         print "This could be due to an incorrect model name or the model not being available to your API key yet.";;
         print "Please check Google's official documentation for the correct Veo model identifier.";;
         mret ReturnNone);
  match model with
  | ReturnNone => failure
  | Continue _ =>
      print "Sending request to Gemini API for video generation (this might take a significant amount of time)...";;
      try_except (request_and_extract w prompt) any_exception
        (λ e,
           print ("An error occurred during Veo video generation or download: "
                  +:+ exn_msg e);;
           failure)
  end.

(** ** The Drive upload *)

(** The progress object a chunk returns; [percent] is the value of
    [int(status.progress() * 100)]. *)
Record Status := { percent : Z }.

(** The Drive service: the answer of [files().create(...)] and of the
    successive calls of [request.next_chunk()], numbered from 0. The response
    of a finished upload is a dictionary. *)
Record DriveService := {
  files_create : option Exn;
  next_chunk : nat → Exn + (option Status * option (gmap string string))
}.

Definition CHUNKSIZE : N := 1024 * 1024 * 5.

(** Lines 220-224. *)
Definition report_progress (status : option Status) (progress : Z) : M Z :=
  match status with
  | Some st =>
      let new_progress := percent st in
      if (progress <? new_progress)%Z then
        print ("Uploaded " +:+ pretty new_progress +:+ "%");;
        mret new_progress
      else mret progress
  | None => mret progress
  end.

(** Lines 217-228: [while response is None]. [calls] counts the chunks
    already requested. *)
Fixpoint upload_loop (fuel : nat) (drive : DriveService) (calls : nat)
    (progress : Z) : M (Flow (gmap string string)) :=
  match fuel with
  | 0 => out_of_fuel
  | S fuel' =>
      step ← try_except
          (answer ← call "request.next_chunk" [] (next_chunk drive calls);
           progress' ← report_progress answer.1 progress;
           mret (Continue (progress', answer.2)))
          any_exception
          (λ e_chunk,
             print ("Error during chunk upload: " +:+ exn_msg e_chunk
                    +:+ ". Retrying may be necessary or check connection.");;
             mret ReturnNone);
      match step with
      | ReturnNone => mret ReturnNone
      | Continue (progress', None) => upload_loop fuel' drive (S calls) progress'
      | Continue (_, Some response) => mret (Continue response)
      end
  end.

(** [file_metadata['parents'] = [folder_id]] when [folder_id] is truthy. *)
Definition parents_of (folder_id : option string) : list string :=
  match folder_id with
  | Some f => if PyStr.truthy f then [f] else []
  | None => []
  end.

Definition upload_to_drive (fuel : nat) (drive_service : option DriveService)
    (filename : string) (video_bytes : list byte) (mime_type : string)
    (folder_id : option string) : M (option string) :=
  match drive_service with
  | None =>
      print "Drive service not available. Cannot upload.";;
      mret None
  | Some drive =>
      print (nl +:+ "--- Uploading '" +:+ filename +:+ "' to Google Drive ---");;
      call "MediaIoUpload" [mime_type; pretty CHUNKSIZE] (inr tt);;
      try_except
        (call "files.create" (filename :: parents_of folder_id)
           (match files_create drive with Some e => inl e | None => inr tt end);;
         print "Starting upload...";;
         finished ← upload_loop fuel drive 0 0;
         match finished with
         | ReturnNone => mret None
         | Continue response =>
             let file_id := response !! "id" in
             let file_link := response !! "webViewLink" in
             print ("SUCCESS: File '" +:+ filename +:+ "' uploaded to Google Drive.");;
             print ("File ID: " +:+ PyStr.str_of_option file_id);;
             print ("View Link: " +:+ PyStr.str_of_option file_link);;
             mret file_link
         end)
        any_exception
        (λ e,
           print ("An error occurred uploading to Drive: " +:+ exn_msg e);;
           mret None)
  end.

(** ** Vocabulary of the statements *)

(** The extension the explicit-name branch appends: the subtype, or [mp4]
    when the subtype is empty or a wildcard. *)
Definition inferred_extension (video_mime_type : string) : string :=
  let sub := mime_subtype video_mime_type in
  if String.eqb sub "" || String.eqb sub "*" then "mp4" else sub.

(** [name] carries a recognized extension: lowered, it is some stem followed
    by one of the five extensions. *)
Definition carries_known_extension (name : string) : Prop :=
  ∃ stem ext, ext ∈ known_video_extensions ∧ PyStr.lower name = stem +:+ ext.

(** The subtypes whose dotted form is a recognized extension. *)
Definition recognized_subtypes : list string := ["mp4"; "mov"; "avi"; "webm"; "mkv"].

(** The lines shown to the operator, in order. *)
Definition printed (t : list Event) : list string :=
  omap (λ ev, match ev with EPrint line => Some line | ECall _ _ => None end) t.

(** The library calls made, in order. *)
Definition library_calls (t : list Event) : list (string * list string) :=
  omap (λ ev, match ev with ECall c args => Some (c, args) | EPrint _ => None end) t.

(** The operator is informed: the last thing that happened is a [print]. *)
Definition informs_operator (t : list Event) : bool :=
  match last t with Some (EPrint _) => true | _ => false end.

(** The failure reports of [generate_veo_video]: the line each failure path
    prints last, just before its [return None, None]. *)
Inductive failure_report : string → Prop :=
| report_model_rejected :
    failure_report
      "Please check Google's official documentation for the correct Veo model identifier."
| report_no_candidates (details : string) :
    failure_report ("Response details: " +:+ details)
| report_no_video_part (content : string) :
    failure_report ("Full response candidate content: " +:+ content)
| report_requests_missing :
    failure_report "Please install it: pip install requests"
| report_https_failed (file_uri msg : string) :
    failure_report ("ERROR: Failed to download video from HTTPS URI '"
                    +:+ file_uri +:+ "': " +:+ msg)
| report_storage_missing :
    failure_report "Please install it: pip install google-cloud-storage"
| report_gcs_failed :
    failure_report
      "Ensure you have 'gcloud auth application-default login' configured and permissions to access the GCS object."
| report_unsupported_scheme :
    failure_report
      "The script currently supports 'https://' and 'gs://' URIs for generated videos."
| report_no_bytes :
    failure_report "ERROR: Video bytes could not be retrieved after URI processing."
| report_outer_handler (msg : string) :
    failure_report ("An error occurred during Veo video generation or download: "
                    +:+ msg).

(** The last thing that happened is the print of a failure report. *)
Definition ends_with_report (t : list Event) : Prop :=
  ∃ line, last t = Some (EPrint line) ∧ failure_report line.

(** The calls that fetch the video: the HTTPS download, and the storage
    client and blob read of the cloud-object download. *)
Definition retrieval_callees : list string :=
  ["requests.get"; "storage.Client"; "blob.download_as_bytes"].

Definition is_retrieval (c : string * list string) : bool :=
  bool_decide (c.1 ∈ retrieval_callees).

Definition retrieval_attempts (t : list Event) : nat :=
  length (List.filter is_retrieval (library_calls t)).

(** The run reaches the download step with the file reference [fd]: the
    model is accepted, the request is answered, the first candidate has
    parts, and the scan of the parts stops at a part carrying [fd]. *)
Definition video_reference (w : GeminiWorld) (prompt : string) (fd : FileData)
  : Prop :=
  generative_model w = None ∧
  ∃ response c cs ct part,
    generate_content w prompt = inr response
    ∧ candidates response = c :: cs
    ∧ content c = Some ct
    ∧ outcome (find_video_part (parts ct)) = Returned (Some part)
    ∧ file_data part = Has fd.

(** A part whose file reference declares a type beginning with [video/]. *)
Definition declares_video (part : Part) : bool :=
  match file_data part with
  | Has fd =>
      match mime_type fd with
      | Some m => PyStr.startswith m "video/"
      | None => false
      end
  | _ => false
  end.

Definition first_video_part (ps : list Part) : option Part :=
  List.find declares_video ps.

(** The [or] of line 133 takes its right operand: the declared type is
    [None] or empty. *)
Definition fallback_taken (declared : option string) : bool :=
  match declared with
  | Some s => negb (PyStr.truthy s)
  | None => true
  end.

(** [c] occurs in [s]. *)
Fixpoint contains (c : ascii) (s : string) : bool :=
  match s with
  | "" => false
  | String c' s' => Ascii.eqb c' c || contains c s'
  end.

(** The failure kinds of the generator in the specification's taxonomy. *)
Inductive GenerationError :=
| ModelInitError
| GenerationRequestError
| EmptyResponseError
| NoVideoPartError
| UnsupportedURISchemeError
| DownloadError.

(** The first [k] chunk requests are answered without a final response. *)
Definition chunks_pending (drive : DriveService) (k : nat) : Prop :=
  ∀ i, i < k → ∃ status, next_chunk drive i = inr (status, None).

(** The value of [progress] after a chunk that returned [status]. *)
Definition progress_after (status : option Status) (progress : Z) : Z :=
  match status with
  | Some st => if (progress <? percent st)%Z then percent st else progress
  | None => progress
  end.

(** The whole-percent values of the progress objects the loop receives,
    from chunk [calls] on, in order. *)
Fixpoint seen_percents (fuel : nat) (drive : DriveService) (calls : nat)
  : list Z :=
  match fuel with
  | 0 => []
  | S fuel' =>
      match next_chunk drive calls with
      | inl _ => []
      | inr (status, response) =>
          match status with Some st => [percent st] | None => [] end
          ++ match response with
             | None => seen_percents fuel' drive (S calls)
             | Some _ => []
             end
      end
  end.

(** The values of a sequence that exceed [progress] and every value before
    them. *)
Fixpoint record_highs (progress : Z) (ps : list Z) : list Z :=
  match ps with
  | [] => []
  | p :: ps' =>
      if (progress <? p)%Z then p :: record_highs p ps'
      else record_highs progress ps'
  end.

Definition uploaded_line (p : Z) : string := "Uploaded " +:+ pretty p +:+ "%".

(** The progress reports among the printed lines. *)
Definition progress_reports (t : list Event) : list string :=
  List.filter (λ line, PyStr.startswith line "Uploaded ") (printed t).

(** ** Example worlds *)

Definition sample_response (fd : FileData) : Response :=
  {| candidates :=
       [ {| content :=
              Some {| parts := [ {| file_data := Missing |};
                                 {| file_data := Has fd |} ];
                      content_repr := "parts { text: ... }" |} |} ];
     response_repr := "GenerateContentResponse(...)" |}.

(** A backend that accepts the model and answers every prompt with a
    reference [fd]; downloads succeed with three bytes. *)
Definition sample_world (fd : FileData) : GeminiWorld :=
  {| generative_model := None;
     generate_content := λ _, inr (sample_response fd);
     requests_installed := true;
     requests_get := λ _, inr [x00; x01; x02]%byte;
     storage_installed := true;
     storage_client := None;
     download_as_bytes := λ _ _, inr [x00; x01; x02]%byte |}.

(** The same backend rejecting the model identifier. *)
Definition world_model_rejected : GeminiWorld :=
  {| generative_model := Some (MkExn OtherException "404 model not found");
     generate_content := λ _, inl (MkExn OtherException "unreachable");
     requests_installed := true;
     requests_get := λ _, inr [x00]%byte;
     storage_installed := true;
     storage_client := None;
     download_as_bytes := λ _ _, inr [x00]%byte |}.

Definition ftp_reference : FileData :=
  {| mime_type := Some "video/mp4"; file_uri := Some "ftp://host/clip.mp4" |}.

Definition https_reference : FileData :=
  {| mime_type := Some "video/webm"; file_uri := Some "https://host/clip.webm" |}.

Definition bucket_only_reference : FileData :=
  {| mime_type := Some "video/mp4"; file_uri := Some "gs://bucketonly" |}.

(** An upload of five chunks: 20, 40, 60 and 80 percent are reported by the
    first four, the fifth returns the response [final]. *)
Definition five_chunks (final : gmap string string) : DriveService :=
  {| files_create := None;
     next_chunk := λ i,
       if decide (i < 4)
       then inr (Some {| percent := 20 * (Z.of_nat i + 1) |}, None)
       else inr (None, Some final) |}.

(** The same upload with the second chunk failing. *)
Definition second_chunk_fails : DriveService :=
  {| files_create := None;
     next_chunk := λ i,
       if decide (i = 1) then inl (MkExn OtherException "connection reset")
       else inr (Some {| percent := 20 * (Z.of_nat i + 1) |}, None) |}.

(** A download block ended in one of the ways the code allows: it fell
    through, it returned after a failure report, or it raised. *)
Definition flow_ok {A} (m : M (Flow A)) : Prop :=
  match outcome m with
  | Returned (Continue _) => True
  | Returned ReturnNone => ends_with_report (trace m)
  | Raised _ => True
  | OutOfFuel => False
  end.

(** The two results of a generation: a non-empty buffer with a [video/]
    type, or no buffer and no type after a failure report. *)
Definition is_success (r : Outcome GenerationResult) : Prop :=
  ∃ video_bytes video_mime_type,
    r = Returned (Some video_bytes, Some video_mime_type)
    ∧ video_bytes ≠ []
    ∧ PyStr.startswith video_mime_type "video/" = true.

Definition is_failure (m : M GenerationResult) : Prop :=
  outcome m = Returned (None, None) ∧ ends_with_report (trace m).

(** Inside the outer [try] an exception may still be on its way up. *)
Definition generation_ok (m : M GenerationResult) : Prop :=
  is_success (outcome m) ∨ is_failure m ∨ ∃ e, outcome m = Raised e.

(** ** The credential store *)

Definition GEMINI_API_KEY_ENV_VAR : string := "GOOGLE_GEMINI_API_KEY".
Definition DRIVE_SCOPES : list string := ["https://www.googleapis.com/auth/drive"].
Definition DRIVE_TOKEN_PICKLE : string := "token.pickle".
Definition DRIVE_CREDENTIALS_JSON : string := "credentials.json".

(** What the code reads of a credentials object. *)
Record Credentials := {
  valid : bool;
  expired : bool;
  refresh_token : option string
}.

(** The token file: a pickled credentials object, or content that makes
    [open] or [pickle.load] raise. *)
Inductive TokenFile :=
| Pickled (creds : Credentials)
| Unreadable (e : Exn).

(** The two files the code touches; [None] and [false] stand for a file
    that does not exist. Writing and removing the token file succeed. *)
Record FileSystem := {
  token_pickle : option TokenFile;
  credentials_json : bool
}.

(** The collaborators of [get_google_drive_service]: [refresh] answers with
    the state of the credentials object after [creds.refresh(Request())],
    [run_local_server] for [from_client_secrets_file] and [run_local_server]
    together. *)
Record AuthWorld := {
  refresh : Credentials → Exn + Credentials;
  run_local_server : Exn + Credentials;
  build : Credentials → Exn + DriveService
}.

(** [os.path.exists(DRIVE_TOKEN_PICKLE)] *)
Definition token_exists (fs : FileSystem) : bool :=
  match token_pickle fs with Some _ => true | None => false end.

(** [pickle.load] on the opened token file. *)
Definition pickle_load (fs : FileSystem) : Exn + Credentials :=
  match token_pickle fs with
  | Some (Pickled creds) => inr creds
  | Some (Unreadable e) => inl e
  | None =>
      inl (MkExn OtherException "[Errno 2] No such file or directory: 'token.pickle'")
  end.

(** [os.remove(DRIVE_TOKEN_PICKLE)] *)
Definition remove_token (fs : FileSystem) : FileSystem :=
  {| token_pickle := None; credentials_json := credentials_json fs |}.

(** [pickle.dump(creds, token)] on the token file opened for writing. *)
Definition write_token (fs : FileSystem) (creds : Credentials) : FileSystem :=
  {| token_pickle := Some (Pickled creds); credentials_json := credentials_json fs |}.

(** Truth value of a string that may be [None]. *)
Definition truthy_option (o : option string) : bool :=
  match o with Some s => PyStr.truthy s | None => false end.

(** Lines 46-49. *)
Definition load_token (fs : FileSystem) : M (option Credentials) :=
  present ← call "os.path.exists" [DRIVE_TOKEN_PICKLE] (inr (token_exists fs));
  if (present : bool) then
    creds ← call "pickle.load" [DRIVE_TOKEN_PICKLE] (pickle_load fs);
    mret (Some creds)
  else mret None.

(** Lines 52-58: the refresh of expired credentials. *)
Definition refresh_credentials (w : AuthWorld) (fs : FileSystem)
    (creds : option Credentials) : M (FileSystem * option Credentials) :=
  match creds with
  | Some c =>
      if expired c && truthy_option (refresh_token c) then
        try_except
          (refreshed ← call "creds.refresh" [] (refresh w c);
           mret (fs, Some refreshed))
          any_exception
          (λ e,
             print ("Failed to refresh Drive token: " +:+ exn_msg e
                    +:+ ". Deleting '" +:+ DRIVE_TOKEN_PICKLE +:+ "' for re-auth.");;
             present ← call "os.path.exists" [DRIVE_TOKEN_PICKLE]
                         (inr (token_exists fs));
             if (present : bool) then
               call "os.remove" [DRIVE_TOKEN_PICKLE] (inr tt);;
               mret (remove_token fs, None)
             else mret (fs, None))
      else mret (fs, Some c)
  | None => mret (fs, None)
  end.

(** Lines 59-67: the interactive grant when no credentials are left. *)
Definition reauthenticate (w : AuthWorld) (fs : FileSystem)
    (creds : option Credentials) : M (Flow Credentials) :=
  match creds with
  | Some c => mret (Continue c)
  | None =>
      present ← call "os.path.exists" [DRIVE_CREDENTIALS_JSON]
                  (inr (credentials_json fs));
      if negb present then
        print ("ERROR: Google Drive API credentials file ('"
               +:+ DRIVE_CREDENTIALS_JSON +:+ "') not found.");;
        print "Please download it from your Google Cloud Console project and place it here.";;
        mret ReturnNone
      else
        granted ← call "InstalledAppFlow.run_local_server"
                    (DRIVE_CREDENTIALS_JSON :: DRIVE_SCOPES) (run_local_server w);
        mret (Continue granted)
  end.

(** Lines 51-70: the body of [if not creds or not creds.valid]. *)
Definition authorize (w : AuthWorld) (fs : FileSystem)
    (creds : option Credentials) : M (FileSystem * Flow Credentials) :=
  r ← refresh_credentials w fs creds;
  step ← reauthenticate w r.1 r.2;
  match step with
  | ReturnNone => mret (r.1, ReturnNone)
  | Continue c =>
      call "pickle.dump" [DRIVE_TOKEN_PICKLE] (inr tt);;
      mret (write_token r.1 c, Continue c)
  end.

(** Lines 71-77. *)
Definition build_service (w : AuthWorld) (creds : Credentials)
  : M (option DriveService) :=
  try_except
    (service ← call "build" ["drive"; "v3"] (build w creds);
     print "Google Drive API service created successfully.";;
     mret (Some service))
    any_exception
    (λ e,
       print ("An error occurred building the Drive service: " +:+ exn_msg e);;
       mret None).

(** The function returns the service or [None]; the file system it leaves
    behind is returned with it. *)
Definition get_google_drive_service (w : AuthWorld) (fs : FileSystem)
  : M (FileSystem * option DriveService) :=
  creds ← load_token fs;
  r ← match creds with
      | Some c => if valid c then mret (fs, Continue c) else authorize w fs creds
      | None => authorize w fs creds
      end;
  match r.2 with
  | ReturnNone => mret (r.1, None)
  | Continue c =>
      service ← build_service w c;
      mret (r.1, service)
  end.

(** ** The command line *)

(** The parsed arguments: [args.prompt], [args.output_filename],
    [args.folder_id]. *)
Record Args := {
  prompt : string;
  output_filename : option string;
  folder_id : option string
}.

(** What [main] reads of its surroundings: the value of
    [os.getenv(GEMINI_API_KEY_ENV_VAR)], the value of
    [time.strftime("%Y%m%d-%H%M%S")], and the collaborators of the functions
    it calls. *)
Record Environment := {
  getenv : option string;
  strftime : string;
  credential_store : AuthWorld;
  gemini : GeminiWorld
}.

(** The double quote character of line 257. *)
Definition dq : string := String "034" "".

(** Lines 255-258. *)
Definition missing_api_key : M unit :=
  print ("ERROR: Google Gemini API key not found in environment variable '"
         +:+ GEMINI_API_KEY_ENV_VAR +:+ "'.");;
  print ("Please set it: export " +:+ GEMINI_API_KEY_ENV_VAR +:+ "="
         +:+ dq +:+ "YOUR_API_KEY" +:+ dq).

(** Lines 272-286. *)
Definition choose_output_filename (env : Environment) (args : Args)
    (video_mime_type : string) : M string :=
  let synthesize :=
    timestamp ← call "time.strftime" ["%Y%m%d-%H%M%S"] (inr (strftime env));
    mret (synthesized_output_filename (prompt args) video_mime_type timestamp) in
  match output_filename args with
  | Some name =>
      if PyStr.truthy name then mret (explicit_output_filename name video_mime_type)
      else synthesize
  | None => synthesize
  end.

(** Lines 288-293. *)
Definition upload_and_report (fuel : nat) (drive_service : DriveService)
    (filename : string) (video_bytes : list byte) (video_mime_type : string)
    (args : Args) : M unit :=
  upload_link ← upload_to_drive fuel (Some drive_service) filename video_bytes
                  video_mime_type (folder_id args);
  match upload_link with
  | Some link =>
      if PyStr.truthy link then
        print (nl +:+ "Process complete! Video available at: " +:+ link)
      else
        print (nl +:+ "Process completed, but upload to Drive may have failed or was skipped.")
  | None =>
      print (nl +:+ "Process completed, but upload to Drive may have failed or was skipped.")
  end.

(** Lines 266-293: from the generation on. *)
Definition generate_and_upload (fuel : nat) (env : Environment) (args : Args)
    (gemini_api_key : string) (drive_service : DriveService) : M unit :=
  result ← generate_veo_video (gemini env) (prompt args) gemini_api_key;
  match result with
  | (Some (b :: bs), Some video_mime_type) =>
      if PyStr.truthy video_mime_type then
        filename ← choose_output_filename env args video_mime_type;
        upload_and_report fuel drive_service filename (b :: bs) video_mime_type args
      else print "Video generation or download failed. Exiting."
  | _ => print "Video generation or download failed. Exiting."
  end.

(** Lines 260-293: [main] once the API key is read. *)
Definition main_with_key (fuel : nat) (env : Environment) (fs : FileSystem)
    (args : Args) (gemini_api_key : string) : M FileSystem :=
  print "--- Authenticating with Google Drive ---";;
  r ← get_google_drive_service (credential_store env) fs;
  match r.2 with
  | None =>
      print "Failed to authenticate with Google Drive. Exiting.";;
      mret r.1
  | Some drive_service =>
      generate_and_upload fuel env args gemini_api_key drive_service;;
      mret r.1
  end.

(** [main], on parsed arguments; it returns the file system it leaves
    behind. *)
Definition main (fuel : nat) (env : Environment) (fs : FileSystem) (args : Args)
  : M FileSystem :=
  key ← call "os.getenv" [GEMINI_API_KEY_ENV_VAR] (inr (getenv env));
  match key with
  | Some gemini_api_key =>
      if PyStr.truthy gemini_api_key
      then main_with_key fuel env fs args gemini_api_key
      else missing_api_key;; mret fs
  | None => missing_api_key;; mret fs
  end.

(** ** Vocabulary for the whole pipeline *)

(** How often [callee] is called in a run. *)
Definition count_calls (callee : string) (t : list Event) : nat :=
  length (List.filter (λ c, String.eqb c.1 callee) (library_calls t)).

(** The callees of a run, in order. *)
Definition callees (t : list Event) : list string := fst <$> library_calls t.

(** Every part is well formed: it has no file reference, or one that
    declares a type. *)
Definition well_formed_part (part : Part) : bool :=
  match file_data part with
  | Missing => true
  | IsNone => false
  | Has fd => match mime_type fd with Some _ => true | None => false end
  end.

(** Cached credentials the code refreshes: expired, with a refresh token. *)
Definition refreshable (c : Credentials) : bool :=
  expired c && truthy_option (refresh_token c).

(** The call sequences of a download. *)
Definition download_call_patterns : list (list string) :=
  [ [];
    ["requests.get"];
    ["storage.Client"];
    ["storage.Client"; "blob.download_as_bytes"] ].

(** The call sequences of a generation: the configuration and the model,
    then at most one request, then at most one download. *)
Definition generator_call_patterns : list (list string) :=
  [ ["genai.configure"; "genai.GenerativeModel"];
    ["genai.configure"; "genai.GenerativeModel"; "model.generate_content"];
    ["genai.configure"; "genai.GenerativeModel"; "model.generate_content";
     "requests.get"];
    ["genai.configure"; "genai.GenerativeModel"; "model.generate_content";
     "storage.Client"];
    ["genai.configure"; "genai.GenerativeModel"; "model.generate_content";
     "storage.Client"; "blob.download_as_bytes"] ].

(** The two complete call sequences of a generation, one per download
    scheme. *)
Definition generation_call_orders : list (list string) :=
  [ ["genai.configure"; "genai.GenerativeModel"; "model.generate_content";
     "requests.get"];
    ["genai.configure"; "genai.GenerativeModel"; "model.generate_content";
     "storage.Client"; "blob.download_as_bytes"] ].

(** What the credential store may call. *)
Definition credential_store_callees : list string :=
  ["os.path.exists"; "pickle.load"; "creds.refresh"; "os.remove";
   "InstalledAppFlow.run_local_server"; "pickle.dump"; "build"].

(** [Some] service when [build] answers, [None] when it raises. *)
Definition built_service (w : AuthWorld) (creds : Credentials)
  : option DriveService :=
  match build w creds with inr service => Some service | inl _ => None end.

(** ** Example worlds of the pipeline *)

Definition valid_credentials : Credentials :=
  {| valid := true; expired := false; refresh_token := Some "1//refresh" |}.

Definition expired_credentials : Credentials :=
  {| valid := false; expired := true; refresh_token := Some "1//refresh" |}.

(** Expired, and nothing to refresh them with. *)
Definition stale_credentials : Credentials :=
  {| valid := false; expired := true; refresh_token := None |}.

Definition complete_response : gmap string string :=
  {[ "id" := "1AbC"; "webViewLink" := "https://drive.example/view" ]}.

(** Refreshing works, the interactive grant works, the service is built. *)
Definition sample_auth_world : AuthWorld :=
  {| refresh := λ _, inr valid_credentials;
     run_local_server := inr valid_credentials;
     build := λ _, inr (five_chunks complete_response) |}.

(** The refresh is refused by the server. *)
Definition refresh_refused : AuthWorld :=
  {| refresh := λ _, inl (MkExn OtherException "invalid_grant");
     run_local_server := inr valid_credentials;
     build := λ _, inr (five_chunks complete_response) |}.

Definition sample_environment (key : option string) (aw : AuthWorld)
    (fd : FileData) : Environment :=
  {| getenv := key;
     strftime := "20240101-120000";
     credential_store := aw;
     gemini := sample_world fd |}.

Definition sample_args : Args :=
  {| prompt := "A cat riding a skateboard down a hill";
     output_filename := None;
     folder_id := None |}.

Definition cached_token (c : Credentials) : FileSystem :=
  {| token_pickle := Some (Pickled c); credentials_json := true |}.

Definition no_files : FileSystem :=
  {| token_pickle := None; credentials_json := false |}.

(** How often [c] occurs among callees. *)
Definition count_in (c : string) (l : list string) : nat :=
  length (List.filter (λ x, String.eqb x c) l).

(** A backend that answers with an HTTPS reference; [installed] says whether
    the requests library is there, [answer] is what the download gives. *)
Definition https_world (installed : bool) (answer : Exn + list byte)
  : GeminiWorld :=
  {| generative_model := None;
     generate_content := λ _, inr (sample_response https_reference);
     requests_installed := installed;
     requests_get := λ _, answer;
     storage_installed := true;
     storage_client := None;
     download_as_bytes := λ _ _, inr [x00]%byte |}.

(** A backend that answers every prompt with [response]. *)
Definition response_world (response : Response) : GeminiWorld :=
  {| generative_model := None;
     generate_content := λ _, inr response;
     requests_installed := true;
     requests_get := λ _, inr [x00]%byte;
     storage_installed := true;
     storage_client := None;
     download_as_bytes := λ _ _, inr [x00]%byte |}.

Definition no_candidates_response : Response :=
  {| candidates := []; response_repr := "GenerateContentResponse()" |}.

(** One candidate whose only part carries no file reference. *)
Definition text_only_response : Response :=
  {| candidates :=
       [ {| content := Some {| parts := [ {| file_data := Missing |} ];
                               content_repr := "parts { text: ... }" |} |} ];
     response_repr := "GenerateContentResponse(...)" |}.

(** The request itself raises [e]. *)
Definition request_fails (e : Exn) : GeminiWorld :=
  {| generative_model := None;
     generate_content := λ _, inl e;
     requests_installed := true;
     requests_get := λ _, inr [x00]%byte;
     storage_installed := true;
     storage_client := None;
     download_as_bytes := λ _ _, inr [x00]%byte |}.

(** One candidate whose only part has [file_data] set to [None]. *)
Definition malformed_part_response : Response :=
  {| candidates :=
       [ {| content := Some {| parts := [ {| file_data := IsNone |} ];
                               content_repr := "parts { ... }" |} |} ];
     response_repr := "GenerateContentResponse(...)" |}.

Definition gs_reference : FileData :=
  {| mime_type := Some "video/mp4";
     file_uri := Some "gs://bucket/videos/clip.mp4" |}.

(** A Drive service that refuses the creation request. *)
Definition create_refused : DriveService :=
  {| files_create := Some (MkExn OtherException "403 insufficient permissions");
     next_chunk := λ _, inl (MkExn OtherException "unreachable") |}.

(** ** Proof automation *)

(** Membership in a list given by its elements. *)
Ltac in_list := repeat first [apply list_elem_of_here | apply list_elem_of_further].

(** The trace at hand ends with the print of a failure report. *)
Ltac reported := eexists; split; [reflexivity|constructor].

(** Evaluate a run whose oracle answers are known, keeping the text of the
    messages as written. *)
Ltac run_code :=
  cbn [mbind M_bind mret M_ret emit print raise call try_except any_exception
       failure out_of_fuel trace outcome app fst snd].

(** Case analysis on the files and the cached credentials, then on the
    answers of the collaborators of the credential store as they come up. *)
Ltac auth_simpl :=
  cbv [mbind M_bind mret M_ret emit print raise call try_except any_exception
       trace outcome app fst snd negb andb remove_token write_token
       credentials_json token_pickle valid expired refresh_token].

(** The same, leaving the fields of credentials that are not known alone. *)
Ltac auth_simpl_keep :=
  cbv [mbind M_bind mret M_ret emit print raise call try_except any_exception
       trace outcome app fst snd negb andb remove_token write_token
       credentials_json token_pickle].

Ltac auth_unfold :=
  unfold get_google_drive_service, load_token, authorize, refresh_credentials,
    reauthenticate, build_service, pickle_load, token_exists.

Ltac auth_oracle :=
  match goal with
  | |- context [refresh ?w ?c] => destruct (refresh w c) eqn:?
  | |- context [run_local_server ?w] => destruct (run_local_server w) eqn:?
  | |- context [build ?w ?c] => destruct (build w c) eqn:?
  end.

Ltac auth_run := auth_unfold; auth_simpl; repeat (auth_oracle; auth_simpl).

Ltac auth_cases fs :=
  destruct fs as [[[[v ex rt]|e0]|] cj];
  [destruct v, ex, (truthy_option rt) eqn:?| |]; destruct cj;
  auth_unfold; auth_simpl;
  repeat match goal with H : truthy_option _ = _ |- _ => rewrite H end;
  auth_simpl; repeat (auth_oracle; auth_simpl).

(** Evaluate a closed call sequence and find it in a list of patterns. *)
Ltac pattern_found := solve [vm_compute; in_list].

(** [run_code] by call-by-value, for runs [cbn] leaves folded. *)
Ltac run_cbv :=
  cbv [mbind M_bind mret M_ret emit print raise call try_except any_exception
       failure out_of_fuel trace outcome app fst snd].

(** ** String lemmas *)

Section StringFacts.

Lemma app_cons (c : ascii) (s t : string) :
  String c s +:+ t = String c (s +:+ t).
Proof. reflexivity. Qed.

Lemma app_nil_l (t : string) : "" +:+ t = t.
Proof. reflexivity. Qed.

Lemma app_empty_r (s : string) : s +:+ "" = s.
Proof. induction s as [|c s IH]; [done|]. by rewrite app_cons, IH. Qed.

Lemma app_assoc' (a b c : string) : (a +:+ b) +:+ c = a +:+ b +:+ c.
Proof. induction a as [|x a IH]; [done|]. by rewrite !app_cons, IH. Qed.

Lemma app_length' (a b : string) :
  String.length (a +:+ b) = String.length a + String.length b.
Proof.
  induction a as [|x a IH]; [done|]. rewrite app_cons. simpl. by rewrite IH.
Qed.

Lemma app_eq_self (a b : string) : a +:+ b = a → b = "".
Proof.
  intros H. apply (f_equal String.length) in H.
  rewrite app_length' in H. destruct b; [done|]. simpl in H. lia.
Qed.

Lemma lower_app (a b : string) :
  PyStr.lower (a +:+ b) = PyStr.lower a +:+ PyStr.lower b.
Proof.
  induction a as [|x a IH]; [done|]. rewrite app_cons. simpl. by rewrite IH.
Qed.

Lemma endswith_iff (s suf : string) :
  PyStr.endswith s suf = true ↔ ∃ p, s = p +:+ suf.
Proof.
  induction s as [|c s IH].
  - change (PyStr.endswith "" suf) with (String.eqb "" suf || false).
    rewrite orb_false_r, String.eqb_eq. split.
    + intros <-. by exists "".
    + intros [p Hp]. destruct p; [done|discriminate].
  - change (PyStr.endswith (String c s) suf)
      with (String.eqb (String c s) suf || PyStr.endswith s suf).
    rewrite orb_true_iff, String.eqb_eq, IH. split.
    + intros [<- | [p ->]]; [by exists ""|by exists (String c p)].
    + intros [[|c' p] Hp]; [by left|].
      right. exists p. rewrite app_cons in Hp. by injection Hp.
Qed.

Lemma endswith_app (p suf : string) : PyStr.endswith (p +:+ suf) suf = true.
Proof. apply endswith_iff. by exists p. Qed.

Lemma endswith_any_iff (s : string) (sufs : list string) :
  PyStr.endswith_any s sufs = true ↔ ∃ p suf, suf ∈ sufs ∧ s = p +:+ suf.
Proof.
  unfold PyStr.endswith_any. rewrite existsb_exists. split.
  - intros (suf & Hin & [p Hp]%endswith_iff).
    exists p, suf. by rewrite list_elem_of_In.
  - intros (p & suf & Hin & ->). exists suf.
    split; [by apply list_elem_of_In|apply endswith_app].
Qed.

Lemma has_known_extension_iff (name : string) :
  has_known_extension name = true ↔ carries_known_extension name.
Proof. apply endswith_any_iff. Qed.

Lemma truthy_iff (s : string) : PyStr.truthy s = true ↔ s ≠ "".
Proof.
  unfold PyStr.truthy. rewrite negb_true_iff. split.
  - intros H ->. discriminate.
  - intros H. by apply String.eqb_neq.
Qed.

Lemma truthy_app_l (a b : string) : a ≠ "" → PyStr.truthy (a +:+ b) = true.
Proof. intros H. apply truthy_iff. by destruct a. Qed.

Lemma slice_to_length (n : nat) (s : string) :
  String.length (PyStr.slice_to n s) = n `min` String.length s.
Proof.
  revert s; induction n as [|n IH]; intros [|c s]; simpl; try done.
  by rewrite IH.
Qed.

Lemma slice_to_from (n : nat) (s : string) :
  PyStr.slice_to n s +:+ PyStr.slice_from n s = s.
Proof.
  revert s; induction n as [|n IH]; intros [|c s]; simpl; try done.
  by rewrite app_cons, IH.
Qed.

Lemma replace_length (old new : ascii) (s : string) :
  String.length (PyStr.replace old new s) = String.length s.
Proof. induction s as [|c s IH]; [done|]. simpl. by rewrite IH. Qed.

(** After [replace(' ', '_')] no space is left. *)
Lemma replace_no_space (s : string) (i : nat) :
  String.get i (PyStr.replace " " "_" s) ≠ Some " "%char.
Proof.
  revert i; induction s as [|c s IH]; intros i; simpl; [done|].
  destruct i as [|i]; [|apply IH].
  destruct (Ascii.eqb c " ") eqn:E; [done|].
  intros [= ->]. by rewrite Ascii.eqb_refl in E.
Qed.

End StringFacts.

(** The branch a truthy explicit name takes, in terms of
    [inferred_extension]. *)
Lemma explicit_output_filename_eq (name video_mime_type : string) :
  explicit_output_filename name video_mime_type =
  if has_known_extension name then name
  else name +:+ "." +:+ inferred_extension video_mime_type.
Proof.
  unfold explicit_output_filename, inferred_extension, PyStr.truthy.
  destruct (has_known_extension name); simpl; [done|].
  destruct (String.eqb (mime_subtype video_mime_type) ""); simpl; [done|].
  by destruct (String.eqb (mime_subtype video_mime_type) "*").
Qed.

Lemma explicit_output_filename_truthy (name video_mime_type : string) :
  name ≠ "" → PyStr.truthy (explicit_output_filename name video_mime_type) = true.
Proof.
  intros H. rewrite explicit_output_filename_eq.
  destruct (has_known_extension name); [by apply truthy_iff|by apply truthy_app_l].
Qed.

Lemma synthesized_output_filename_truthy (prompt video_mime_type timestamp : string) :
  PyStr.truthy (synthesized_output_filename prompt video_mime_type timestamp) = true.
Proof. done. Qed.

Lemma determine_output_filename_truthy name prompt video_mime_type timestamp :
  PyStr.truthy
    (determine_output_filename name prompt video_mime_type timestamp) = true.
Proof.
  destruct name as [name|]; simpl; [|done].
  destruct (PyStr.truthy name) eqn:E; [|done].
  by apply explicit_output_filename_truthy, truthy_iff.
Qed.

(** ** Laws of the effect monad *)

Section MonadFacts.
Context {A B : Type}.

Lemma M_eta (m : M A) : m = Run (trace m) (outcome m).
Proof. by destruct m. Qed.

Lemma mret_bind (a : A) (f : A → M B) : mret a ≫= f = f a.
Proof. by destruct (f a) eqn:E; unfold mbind, M_bind; simpl; rewrite E. Qed.

Lemma returned_bind (a : A) (f : A → M B) : Run [] (Returned a) ≫= f = f a.
Proof. apply mret_bind. Qed.

Lemma outcome_bind (m : M A) (f : A → M B) :
  outcome (m ≫= f) =
  match outcome m with
  | Returned a => outcome (f a)
  | Raised e => Raised e
  | OutOfFuel => OutOfFuel
  end.
Proof. unfold mbind, M_bind. by destruct (outcome m). Qed.

Lemma trace_bind (m : M A) (f : A → M B) :
  trace (m ≫= f) =
  match outcome m with
  | Returned a => trace m ++ trace (f a)
  | _ => trace m
  end.
Proof. unfold mbind, M_bind. by destruct (outcome m). Qed.

Lemma bind_returned (m : M A) (f : A → M B) (a : A) :
  outcome m = Returned a →
  m ≫= f = Run (trace m ++ trace (f a)) (outcome (f a)).
Proof. intros H. unfold mbind, M_bind. by rewrite H. Qed.

Lemma bind_raised (m : M A) (f : A → M B) (e : Exn) :
  outcome m = Raised e → m ≫= f = Run (trace m) (Raised e).
Proof. intros H. unfold mbind, M_bind. by rewrite H. Qed.

Lemma emit_bind (ev : Event) (k : M B) :
  emit ev ≫= (λ _, k) = Run (ev :: trace k) (outcome k).
Proof. done. Qed.

Lemma print_bind (line : string) (k : M B) :
  print line ≫= (λ _, k) = Run (EPrint line :: trace k) (outcome k).
Proof. done. Qed.

Lemma call_answers (callee : string) (args : list string) (a : A) :
  call callee args (inr a) = Run [ECall callee args] (Returned a).
Proof. done. Qed.

Lemma call_raises (callee : string) (args : list string) (e : Exn) :
  call callee args (inl e) = Run [ECall callee args] (@Raised A e).
Proof. done. Qed.

Lemma try_except_returned (m : M A) catches (h : Exn → M A) (a : A) :
  outcome m = Returned a → try_except m catches h = m.
Proof. intros H. unfold try_except. by rewrite H. Qed.

Lemma try_except_caught (m : M A) catches (h : Exn → M A) (e : Exn) :
  outcome m = Raised e → catches e = true →
  try_except m catches h = Run (trace m ++ trace (h e)) (outcome (h e)).
Proof. intros H Hc. unfold try_except. by rewrite H, Hc. Qed.

Lemma try_except_passed (m : M A) catches (h : Exn → M A) (e : Exn) :
  outcome m = Raised e → catches e = false → try_except m catches h = m.
Proof. intros H Hc. unfold try_except. by rewrite H, Hc. Qed.

End MonadFacts.

Lemma informs_operator_app (t1 t2 : list Event) :
  informs_operator t2 = true → informs_operator (t1 ++ t2) = true.
Proof.
  unfold informs_operator. rewrite last_app.
  by destruct (last t2) as [[]|].
Qed.

Lemma informs_operator_cons (ev : Event) (t : list Event) :
  informs_operator t = true → informs_operator (ev :: t) = true.
Proof. apply (informs_operator_app [ev]). Qed.

Lemma informs_operator_snoc (t : list Event) (line : string) :
  informs_operator (t ++ [EPrint line]) = true.
Proof. by apply informs_operator_app. Qed.

(** ** File name derivation: properties *)

(** C7, as stated, fails for the empty explicit name: [-o ''] is falsy, so
    the name is synthesized from the prompt and nothing is appended to the
    given name. *)
Lemma C7_empty_name_counterexample :
  ¬ (∀ name prompt video_mime_type timestamp : string,
       ¬ carries_known_extension name →
       determine_output_filename (Some name) prompt video_mime_type timestamp
       = name +:+ "." +:+ inferred_extension video_mime_type).
Proof.
  intros H.
  specialize (H "" "A cat" "video/mp4" "20240101-120000").
  assert (Hn : ¬ carries_known_extension "").
  { intros Hk%has_known_extension_iff. discriminate Hk. }
  specialize (H Hn). vm_compute in H. discriminate H.
Qed.

(** C7, amended: for every non-empty explicit output name, a name that
    carries a recognized video extension (in any letter case) is left
    unchanged, and any other name gets a dot and the extension inferred from
    the content type's subtype ([mp4] when the subtype is empty or a
    wildcard) appended; "clip" with "video/mp4" gives "clip.mp4" and
    "clip.mov" stays "clip.mov". *)
Theorem C7_explicit_name_extension (name prompt video_mime_type timestamp : string) :
  name ≠ "" →
  (carries_known_extension name →
   determine_output_filename (Some name) prompt video_mime_type timestamp = name)
  ∧ (¬ carries_known_extension name →
     determine_output_filename (Some name) prompt video_mime_type timestamp
     = name +:+ "." +:+ inferred_extension video_mime_type)
  ∧ determine_output_filename (Some "clip") prompt "video/mp4" timestamp = "clip.mp4"
  ∧ determine_output_filename (Some "clip.mov") prompt video_mime_type timestamp
    = "clip.mov".
Proof.
  intros Hname. apply truthy_iff in Hname.
  unfold determine_output_filename. rewrite Hname.
  rewrite explicit_output_filename_eq.
  repeat split; try done.
  - intros Hk%has_known_extension_iff. by rewrite Hk.
  - intros Hk. destruct (has_known_extension name) eqn:E; [|done].
    by apply has_known_extension_iff in E.
Qed.

(** The name "holiday" is not empty and carries no recognized extension:
    with content type "video/webm" it becomes "holiday.webm". *)
Lemma C7_explicit_name_extension_witness :
  "holiday" ≠ ""
  ∧ determine_output_filename (Some "holiday") "a cat" "video/webm" "20240101-120000"
    = "holiday.webm".
Proof.
  split; [done|].
  destruct (C7_explicit_name_extension "holiday" "a cat" "video/webm"
              "20240101-120000") as (_ & Happend & _); [done|].
  rewrite Happend; [reflexivity|].
  intros Hk%has_known_extension_iff. discriminate Hk.
Defined.

(** C2, as stated, fails: with content type "video/quicktime" the name "clip"
    becomes "clip.quicktime", which still lacks a recognized extension, so a
    second derivation gives "clip.quicktime.quicktime". *)
Lemma C2_quicktime_counterexample :
  ¬ (∀ name prompt video_mime_type timestamp : string,
       let once :=
         determine_output_filename (Some name) prompt video_mime_type timestamp in
       determine_output_filename (Some once) prompt video_mime_type timestamp
       = once).
Proof.
  intros H.
  specialize (H "clip" "a cat" "video/quicktime" "20240101-120000").
  vm_compute in H. discriminate H.
Qed.

Lemma dotted_recognized_subtype (sub : string) :
  PyStr.lower sub ∈ recognized_subtypes →
  "." +:+ PyStr.lower sub ∈ known_video_extensions.
Proof.
  unfold recognized_subtypes, known_video_extensions.
  intros H. rewrite !elem_of_cons, elem_of_nil in H.
  destruct H as [-> | [-> | [-> | [-> | [-> | []]]]]];
    change ("." +:+ ?s) with (String "." s); in_list.
Qed.

Lemma appended_extension_known (name video_mime_type : string) :
  mime_subtype video_mime_type = "" ∨ mime_subtype video_mime_type = "*"
  ∨ PyStr.lower (mime_subtype video_mime_type) ∈ recognized_subtypes →
  carries_known_extension (name +:+ "." +:+ inferred_extension video_mime_type).
Proof.
  intros Hsub. unfold carries_known_extension, inferred_extension.
  rewrite !lower_app.
  destruct Hsub as [-> | [-> | Hsub]].
  - exists (PyStr.lower name), ".mp4". split; [in_list|done].
  - exists (PyStr.lower name), ".mp4". split; [in_list|done].
  - destruct (String.eqb _ "" || String.eqb _ "*").
    + exists (PyStr.lower name), ".mp4". split; [in_list|done].
    + exists (PyStr.lower name), ("." +:+ PyStr.lower (mime_subtype video_mime_type)).
      split; [by apply dotted_recognized_subtype|done].
Qed.

(** C2, amended: deriving a second time from the derived name and the same
    content type gives the same file name exactly when the once-derived name
    carries a recognized video extension; this is the case for every
    non-empty explicit name when the content type's subtype is empty, a
    wildcard, or (in any letter case) one of mp4, mov, avi, webm, mkv. *)
Theorem C2_idempotent_when_extension_known
    (name prompt video_mime_type timestamp : string) :
  let once :=
    determine_output_filename (Some name) prompt video_mime_type timestamp in
  (determine_output_filename (Some once) prompt video_mime_type timestamp = once
   ↔ carries_known_extension once)
  ∧ (name ≠ "" →
     mime_subtype video_mime_type = "" ∨ mime_subtype video_mime_type = "*"
     ∨ PyStr.lower (mime_subtype video_mime_type) ∈ recognized_subtypes →
     determine_output_filename (Some once) prompt video_mime_type timestamp
     = once).
Proof.
  intros once.
  assert (Hiff :
    determine_output_filename (Some once) prompt video_mime_type timestamp = once
    ↔ carries_known_extension once).
  { unfold determine_output_filename at 1.
    unfold once at 1. rewrite determine_output_filename_truthy. fold once.
    rewrite explicit_output_filename_eq, <- has_known_extension_iff.
    destruct (has_known_extension once); [done|].
    split; [|done]. intros H%app_eq_self. discriminate H. }
  split; [done|].
  intros Hname Hsub. apply Hiff.
  unfold once, determine_output_filename.
  apply truthy_iff in Hname. rewrite Hname, explicit_output_filename_eq.
  destruct (has_known_extension name) eqn:E.
  - by apply has_known_extension_iff.
  - by apply appended_extension_known.
Qed.

(** The name "clip" with content type "video/WebM": the subtype is a recognized one in mixed case, and the second derivation changes nothing. *)
Lemma C2_idempotent_when_extension_known_witness :
  "clip" ≠ ""
  ∧ determine_output_filename
      (Some (determine_output_filename (Some "clip") "a cat" "video/WebM" "t"))
      "a cat" "video/WebM" "t"
    = determine_output_filename (Some "clip") "a cat" "video/WebM" "t".
Proof.
  split; [done|].
  apply (C2_idempotent_when_extension_known "clip" "a cat" "video/WebM" "t").
  - done.
  - right; right. vm_compute. in_list.
Defined.

(** C3, as stated, fails in its example: the first 20 characters of the
    prompt end in "skate", not in "skateboar". *)
Lemma C3_spec_example_counterexample :
  determine_output_filename None "A cat riding a skateboard down a hill"
    "video/webm" "20240101-120000"
  ≠ "veo_video_A_cat_riding_a_skateboar_20240101-120000.webm".
Proof. vm_compute. discriminate. Qed.

(** C3, amended: when no explicit output name is given and the content
    type has a non-empty subtype, the synthesized file name is the fixed
    prefix, the first 20 characters of the prompt with spaces replaced by
    underscores, the timestamp, and the extension inferred from the content
    type; for prompt "A cat riding a skateboard down a hill", content type
    "video/webm" and timestamp 20240101-120000 it is
    "veo_video_A_cat_riding_a_skate_20240101-120000.webm". *)
Theorem C3_synthesized_name (prompt video_mime_type timestamp : string) :
  mime_subtype video_mime_type ≠ "" →
  let head := PyStr.slice_to 20 prompt in
  determine_output_filename None prompt video_mime_type timestamp
  = "veo_video_" +:+ PyStr.replace " " "_" head +:+ "_" +:+ timestamp
      +:+ "." +:+ inferred_extension video_mime_type
  ∧ (∃ rest, prompt = head +:+ rest)
  ∧ String.length head = 20 `min` String.length prompt
  ∧ String.length (PyStr.replace " " "_" head) = String.length head
  ∧ (∀ i, String.get i (PyStr.replace " " "_" head) ≠ Some " "%char)
  ∧ determine_output_filename None "A cat riding a skateboard down a hill"
      "video/webm" "20240101-120000"
    = "veo_video_A_cat_riding_a_skate_20240101-120000.webm".
Proof.
  intros Hsub head. repeat split.
  - assert (Htype : PyStr.truthy video_mime_type = true).
    { apply truthy_iff. intros ->. by apply Hsub. }
    apply String.eqb_neq in Hsub.
    unfold determine_output_filename, synthesized_output_filename,
      inferred_extension.
    rewrite Htype, Hsub. cbn [andb orb].
    by destruct (String.eqb (mime_subtype video_mime_type) "*").
  - exists (PyStr.slice_from 20 prompt). symmetry. apply slice_to_from.
  - apply slice_to_length.
  - apply replace_length.
  - apply replace_no_space.
Qed.

(** The example of the claim, with the first 20 characters of its prompt. *)
Lemma C3_synthesized_name_witness :
  mime_subtype "video/webm" ≠ ""
  ∧ determine_output_filename None "A cat riding a skateboard down a hill"
      "video/webm" "20240101-120000"
    = "veo_video_" +:+ "A_cat_riding_a_skate" +:+ "_" +:+ "20240101-120000"
        +:+ "." +:+ "webm".
Proof.
  assert (Hsub : mime_subtype "video/webm" ≠ "") by (vm_compute; discriminate).
  split; [exact Hsub|].
  destruct (C3_synthesized_name "A cat riding a skateboard down a hill"
              "video/webm" "20240101-120000" Hsub) as [Hname _].
  exact Hname.
Defined.

(** Left out of C3: a non-empty content type with an empty subtype. Line 285
    tests the whole content type where line 279 tests the subtype, so the
    synthesized name ends in a dot where the explicit-name branch appends
    [mp4]. *)
Lemma synthesized_name_empty_subtype :
  determine_output_filename None "ab" "video/" "T" = "veo_video_ab_T."
  ∧ determine_output_filename (Some "ab") "ab" "video/" "T" = "ab.mp4".
Proof. by vm_compute. Qed.

(** ** The generator: the scan of the response parts *)

Lemma part_is_video_trace (part : Part) : trace (part_is_video part) = [].
Proof. unfold part_is_video. by destruct (file_data part) as [| |[[m|] u]]. Qed.

Lemma part_is_video_returned (part : Part) (b : bool) :
  outcome (part_is_video part) = Returned b → b = declares_video part.
Proof.
  unfold part_is_video, declares_video.
  destruct (file_data part) as [| |[[m|] u]]; simpl; congruence.
Qed.

Lemma part_is_video_fuel (part : Part) : outcome (part_is_video part) ≠ OutOfFuel.
Proof. unfold part_is_video. by destruct (file_data part) as [| |[[m|] u]]. Qed.

Lemma find_video_part_trace (ps : list Part) : trace (find_video_part ps) = [].
Proof.
  induction ps as [|part ps IH]; [done|]. simpl.
  rewrite trace_bind, part_is_video_trace.
  destruct (outcome (part_is_video part)) as [[]| |]; done.
Qed.

(** The loop stops at the first part that declares a video type, unless an
    earlier part makes the test raise. *)
Lemma find_video_part_cases (ps : list Part) :
  match outcome (find_video_part ps) with
  | Returned None => first_video_part ps = None
  | Returned (Some part) =>
      first_video_part ps = Some part ∧ declares_video part = true
  | Raised _ => True
  | OutOfFuel => False
  end.
Proof.
  induction ps as [|part ps IH]; [done|]. simpl.
  rewrite outcome_bind.
  pose proof (part_is_video_returned part) as Hb.
  pose proof (part_is_video_fuel part) as Hf.
  destruct (outcome (part_is_video part)) as [b| |]; [|done..].
  specialize (Hb b eq_refl). subst b.
  unfold first_video_part. simpl.
  destruct (declares_video part) eqn:E; [done|]. apply IH.
Qed.

Lemma find_video_part_selected (ps : list Part) (part : Part) :
  outcome (find_video_part ps) = Returned (Some part) →
  find_video_part ps = Run [] (Returned (Some part))
  ∧ first_video_part ps = Some part
  ∧ declares_video part = true
  ∧ ps ≠ [].
Proof.
  intros H. pose proof (find_video_part_cases ps) as Hc. rewrite H in Hc.
  destruct Hc as [Hf Hd]. repeat split; try done.
  - by rewrite (M_eta (find_video_part ps)), find_video_part_trace, H.
  - by intros ->.
Qed.

(** A part that declares a video type has a file reference whose declared
    type is a non-empty string beginning with [video/]: the [or] of line 133
    keeps it. *)
Lemma declares_video_type (part : Part) :
  declares_video part = true →
  ∃ fd m, file_data part = Has fd ∧ mime_type fd = Some m
          ∧ PyStr.startswith m "video/" = true
          ∧ m ≠ ""
          ∧ fallback_taken (mime_type fd) = false
          ∧ or_default (mime_type fd) DEFAULT_VIDEO_MIME_TYPE = m.
Proof.
  unfold declares_video. destruct (file_data part) as [| |fd]; try done.
  destruct (mime_type fd) as [m|] eqn:Hm; [|done].
  intros Hv. exists fd, m. rewrite Hm.
  assert (m ≠ "") as Hne by (intros ->; discriminate Hv).
  apply truthy_iff in Hne as Ht.
  repeat split; try done; simpl; by rewrite Ht.
Qed.

(** ** The generator: the download *)

Lemma ends_with_report_app (t1 t2 : list Event) :
  ends_with_report t2 → ends_with_report (t1 ++ t2).
Proof.
  intros (line & Hlast & Hreport). exists line. split; [|done].
  rewrite last_app. by rewrite Hlast.
Qed.

Lemma ends_with_report_snoc (t : list Event) (line : string) :
  failure_report line → ends_with_report (t ++ [EPrint line]).
Proof. intros H. apply ends_with_report_app. by exists line. Qed.

Lemma download_https_ok (w : GeminiWorld) (u : string) :
  flow_ok (download_https w u).
Proof.
  unfold download_https, flow_ok.
  destruct (requests_installed w); cbn [negb].
  - run_code. destruct (requests_get w u) as [e|vb]; [|done].
    run_code. destruct (is_request_exception e); [|done].
    run_code. reported.
  - run_code. reported.
Qed.

Lemma download_gcs_ok (w : GeminiWorld) (u : string) :
  flow_ok (download_gcs w u).
Proof.
  unfold download_gcs, flow_ok.
  destruct (storage_installed w); cbn [negb]; [|run_code; reported].
  run_code. destruct (storage_client w) as [e|]; [run_code; reported|].
  unfold parse_gs_uri.
  destruct (PyStr.split1 "/" (PyStr.slice_from 5 u)) as [|b [|k [|]]];
    [run_code; reported|run_code; reported| |run_code; reported].
  run_code. destruct (download_as_bytes w b k); run_code; [reported|done].
Qed.

Lemma download_video_ok (w : GeminiWorld) (file_uri : option string) :
  flow_ok (download_video w file_uri).
Proof.
  destruct file_uri as [u|]; [|done]. unfold download_video.
  destruct (PyStr.startswith u "https://"); [apply download_https_ok|].
  destruct (PyStr.startswith u "gs://"); [apply download_gcs_ok|].
  unfold flow_ok. run_code. reported.
Qed.

(** ** The generator: from the response to the result *)

Lemma generation_ok_prefix (t0 : list Event) (m : M GenerationResult) :
  generation_ok m → generation_ok (Run (t0 ++ trace m) (outcome m)).
Proof.
  intros [Hs | [[Ho Hi] | He]]; [by left| |by right; right].
  right; left. split; [done|]. by apply ends_with_report_app.
Qed.

Lemma return_video_ok (m : M (Flow (list byte))) (video_mime_type : string) :
  flow_ok m → PyStr.startswith video_mime_type "video/" = true →
  generation_ok (step ← m; return_video step video_mime_type).
Proof.
  unfold flow_ok, generation_ok, is_failure. intros Hm Hv.
  rewrite outcome_bind, trace_bind.
  destruct (outcome m) as [[[|b bs]|]|e|]; simpl; try done.
  - right; left. split; [done|]. apply ends_with_report_snoc. constructor.
  - left. by exists (b :: bs), video_mime_type.
  - right; left. by rewrite app_nil_r.
  - right; right. by exists e.
Qed.

Lemma no_candidates_failure (response : Response) :
  is_failure (no_candidates response).
Proof. split; [done|]. reported. Qed.

Lemma extract_video_ok (w : GeminiWorld) (ct : Content) :
  generation_ok (extract_video w ct).
Proof.
  unfold extract_video.
  pose proof (find_video_part_cases (parts ct)) as Hc.
  destruct (outcome (find_video_part (parts ct))) as [[part|]|e|] eqn:Ho;
    try done.
  - destruct Hc as [_ (fd & m & Hfd & Hm & Hv & _ & _ & Hor)%declares_video_type].
    rewrite (bind_returned _ _ _ Ho), find_video_part_trace.
    unfold get_file_data. rewrite Hfd, mret_bind, Hor, !print_bind.
    cbn [trace outcome app].
    apply (generation_ok_prefix [_; _]).
    apply return_video_ok; [apply download_video_ok|done].
  - rewrite (bind_returned _ _ _ Ho), find_video_part_trace.
    right; left. split; [done|]. reported.
  - rewrite (bind_raised _ _ _ Ho). right; right. by exists e.
Qed.

Lemma request_and_extract_ok (w : GeminiWorld) (prompt : string) :
  generation_ok (request_and_extract w prompt).
Proof.
  unfold request_and_extract.
  destruct (generate_content w prompt) as [e|response].
  - right; right. by exists e.
  - rewrite call_answers, (bind_returned _ _ response); [|done].
    cbn [trace outcome app]. apply (generation_ok_prefix [_]).
    destruct (candidates response) as [|c cs];
      [right; left; apply no_candidates_failure|].
    destruct (content c) as [ct|];
      [|right; left; apply no_candidates_failure].
    destruct (parts ct) as [|part ps] eqn:Hps;
      [right; left; apply no_candidates_failure|].
    apply extract_video_ok.
Qed.

(** The outer handler turns an exception into the failure result. *)
Lemma outer_handler_ok (m : M GenerationResult) :
  generation_ok m →
  let run :=
    try_except m any_exception
      (λ e, print ("An error occurred during Veo video generation or download: "
                   +:+ exn_msg e);; failure) in
  is_success (outcome run) ∨ is_failure run.
Proof.
  intros [Hs | [Hf | [e He]]] run; unfold run.
  - destruct Hs as (b & mt & Ho & Hs). left.
    rewrite (try_except_returned _ _ _ _ Ho). by exists b, mt.
  - destruct Hf as [Ho Hi]. right.
    by rewrite (try_except_returned _ _ _ _ Ho).
  - right. rewrite (try_except_caught _ _ _ _ He); [|done].
    split; [done|]. apply ends_with_report_snoc. constructor.
Qed.

(** The run of [generate_veo_video] once the model is accepted. *)
Lemma generate_veo_video_accepted (w : GeminiWorld) (prompt gemini_api_key : string) :
  generative_model w = None →
  let body :=
    try_except (request_and_extract w prompt) any_exception
      (λ e, print ("An error occurred during Veo video generation or download: "
                   +:+ exn_msg e);; failure) in
  generate_veo_video w prompt gemini_api_key
  = Run ([EPrint (nl +:+ "--- Generating Video for Prompt: '" +:+ prompt +:+ "' ---");
          EPrint ("Using Veo model: " +:+ VEO_MODEL_NAME);
          ECall "genai.configure" [gemini_api_key];
          ECall "genai.GenerativeModel" [VEO_MODEL_NAME];
          EPrint "Sending request to Gemini API for video generation (this might take a significant amount of time)..."]
         ++ trace body)
        (outcome body).
Proof. intros Hgm body. unfold generate_veo_video. by rewrite Hgm. Qed.

(** C1, as stated, fails: the failure signal does not tell the failing phase.
    A rejected model and an unsupported URI scheme return the same value, so
    no reading of the returned value yields the failure kind. Nor does what
    is printed: a request that raises and a response with a malformed part
    are two failing phases whose runs are the same altogether, returned
    value, lines printed and calls made. *)
Lemma C1_failure_kinds_counterexample :
  let rejected := generate_veo_video world_model_rejected "a cat" "KEY" in
  let unsupported := generate_veo_video (sample_world ftp_reference) "a cat" "KEY" in
  let refused :=
    generate_veo_video
      (request_fails
         (MkExn AttributeError "'NoneType' object has no attribute 'mime_type'"))
      "a cat" "KEY" in
  let malformed :=
    generate_veo_video (response_world malformed_part_response) "a cat" "KEY" in
  outcome rejected = Returned (None, None)
  ∧ outcome unsupported = Returned (None, None)
  ∧ (¬ ∃ kind_of : Outcome GenerationResult → GenerationError,
         kind_of (outcome rejected) = ModelInitError
         ∧ kind_of (outcome unsupported) = UnsupportedURISchemeError)
  ∧ refused = malformed
  ∧ (¬ ∃ kind_of : M GenerationResult → GenerationError,
         kind_of refused = GenerationRequestError
         ∧ kind_of malformed = NoVideoPartError).
Proof.
  cbv zeta.
  assert (Hsame :
    generate_veo_video
      (request_fails
         (MkExn AttributeError "'NoneType' object has no attribute 'mime_type'"))
      "a cat" "KEY"
    = generate_veo_video (response_world malformed_part_response) "a cat" "KEY")
    by reflexivity.
  repeat split; try done.
  - intros (kind_of & H1 & H2).
    change (kind_of (Returned (None, None)) = ModelInitError) in H1.
    change (kind_of (Returned (None, None)) = UnsupportedURISchemeError) in H2.
    congruence.
  - intros (kind_of & H1 & H2). rewrite Hsame in H1. congruence.
Qed.

(** C1, amended: for every valid prompt, whenever the generate operation
    returns, it returns either a non-empty byte buffer together with a
    content type beginning with [video/], or the failure signal, which is
    no buffer and no content type, after the print of one of its failure
    reports; never both a buffer and a failure. The failure signal is the
    same value in every failing phase. *)
Theorem C1_buffer_or_failure (w : GeminiWorld) (prompt gemini_api_key : string)
    (result : GenerationResult) :
  let run := generate_veo_video w prompt gemini_api_key in
  outcome run = Returned result →
  (∃ video_bytes video_mime_type,
      result = (Some video_bytes, Some video_mime_type)
      ∧ video_bytes ≠ []
      ∧ PyStr.startswith video_mime_type "video/" = true)
  ∨ (result = (None, None) ∧ ends_with_report (trace run)).
Proof.
  intros run. unfold run.
  destruct (generative_model w) as [e|] eqn:Hgm.
  - unfold generate_veo_video. rewrite Hgm. run_code.
    intros [= <-]. right. split; [done|]. reported.
  - rewrite generate_veo_video_accepted; [|done]. cbv zeta. cbn [outcome trace].
    destruct (outer_handler_ok _ (request_and_extract_ok w prompt))
      as [(vb & mt & Ho & Hne & Hv) | [Ho Hi]]; rewrite Ho; intros [= <-].
    + left. by exists vb, mt.
    + right. split; [done|]. by apply ends_with_report_app.
Qed.

(** A successful run, and a run that ends in the failure signal. *)
Lemma C1_buffer_or_failure_witness :
  (∃ video_bytes video_mime_type,
      (Some [x00; x01; x02]%byte, Some "video/webm")
      = (Some video_bytes, Some video_mime_type)
      ∧ video_bytes ≠ []
      ∧ PyStr.startswith video_mime_type "video/" = true)
  ∨ ((Some [x00; x01; x02]%byte, Some "video/webm") = (None, None)
     ∧ ends_with_report
         (trace (generate_veo_video (sample_world https_reference) "a cat" "KEY"))).
Proof.
  apply (C1_buffer_or_failure (sample_world https_reference) "a cat" "KEY"
           (Some [x00; x01; x02]%byte, Some "video/webm")).
  reflexivity.
Defined.

(** ** The generator: runs that reach the download *)

(** The run of the outer [try] body when the scan selects the reference
    [fd]. *)
Lemma request_and_extract_reference (w : GeminiWorld) (prompt : string)
    (fd : FileData) :
  video_reference w prompt fd →
  let video_mime_type := or_default (mime_type fd) DEFAULT_VIDEO_MIME_TYPE in
  let tail :=
    step ← download_video w (file_uri fd); return_video step video_mime_type in
  request_and_extract w prompt
  = Run (ECall "model.generate_content" [prompt]
         :: EPrint ("Video generation apparently successful. File URI: "
                    +:+ PyStr.str_of_option (file_uri fd)
                    +:+ ", MIME type: " +:+ video_mime_type)
         :: EPrint "Attempting to download video from URI..."
         :: trace tail)
        (outcome tail).
Proof.
  intros (_ & response & c & cs & ct & part & Hgc & Hc & Hct & Hsel & Hfd).
  apply find_video_part_selected in Hsel as (Hfind & _ & _ & Hps).
  intros video_mime_type tail.
  unfold request_and_extract. rewrite Hgc, call_answers.
  rewrite (bind_returned _ _ response); [|done].
  rewrite Hc, Hct. destruct (parts ct) as [|p ps] eqn:Hparts; [done|].
  unfold extract_video. rewrite Hparts, Hfind, returned_bind.
  unfold get_file_data. rewrite Hfd, mret_bind, !print_bind.
  reflexivity.
Qed.

(** What a successful run of the outer [try] body has gone through. *)
Lemma request_and_extract_success (w : GeminiWorld) (prompt : string)
    (video_bytes : list byte) (video_mime_type : string) :
  outcome (request_and_extract w prompt)
  = Returned (Some video_bytes, Some video_mime_type) →
  ∃ response c cs ct part,
    generate_content w prompt = inr response
    ∧ candidates response = c :: cs
    ∧ content c = Some ct
    ∧ outcome (find_video_part (parts ct)) = Returned (Some part).
Proof.
  unfold request_and_extract.
  destruct (generate_content w prompt) as [e|response] eqn:Hgc; [done|].
  rewrite call_answers, (bind_returned _ _ response); [|done].
  cbn [outcome].
  destruct (candidates response) as [|c cs] eqn:Hc; [done|].
  destruct (content c) as [ct|] eqn:Hct; [|done].
  destruct (parts ct) as [|p ps] eqn:Hparts; [done|].
  unfold extract_video. rewrite outcome_bind.
  destruct (outcome (find_video_part (parts ct))) as [[part|]|e|] eqn:Ho;
    try done.
  intros _. by exists response, c, cs, ct, part.
Qed.

Lemma generate_veo_video_success (w : GeminiWorld) (prompt gemini_api_key : string)
    (video_bytes : list byte) (video_mime_type : string) :
  outcome (generate_veo_video w prompt gemini_api_key)
  = Returned (Some video_bytes, Some video_mime_type) →
  generative_model w = None
  ∧ outcome (request_and_extract w prompt)
    = Returned (Some video_bytes, Some video_mime_type).
Proof.
  destruct (generative_model w) as [e|] eqn:Hgm.
  - unfold generate_veo_video. by rewrite Hgm.
  - rewrite generate_veo_video_accepted; [|done]. cbn [outcome].
    unfold try_except.
    destruct (outcome (request_and_extract w prompt)) as [r|e|] eqn:Ho;
      rewrite ?Ho; done.
Qed.

(** C9: whenever the generate operation succeeds, the returned content type
    is exactly the declared type of the first response part whose file
    reference declares a type beginning with [video/]; that type is a
    non-empty string, so the fallback to the default type is not taken. *)
Theorem C9_returned_type_is_declared (w : GeminiWorld) (prompt gemini_api_key : string)
    (video_bytes : list byte) (video_mime_type : string) :
  outcome (generate_veo_video w prompt gemini_api_key)
  = Returned (Some video_bytes, Some video_mime_type) →
  ∃ response c ct part fd,
    generate_content w prompt = inr response
    ∧ head (candidates response) = Some c
    ∧ content c = Some ct
    ∧ first_video_part (parts ct) = Some part
    ∧ file_data part = Has fd
    ∧ mime_type fd = Some video_mime_type
    ∧ video_mime_type ≠ ""
    ∧ PyStr.startswith video_mime_type "video/" = true
    ∧ fallback_taken (mime_type fd) = false.
Proof.
  intros [Hgm Hok]%generate_veo_video_success.
  destruct (request_and_extract_success _ _ _ _ Hok)
    as (response & c & cs & ct & part & Hgc & Hc & Hct & Hsel).
  destruct (find_video_part_selected _ _ Hsel) as (_ & Hfirst & Hdecl & _).
  destruct (declares_video_type _ Hdecl)
    as (fd & m & Hfd & Hm & Hv & Hne & Hfb & Hor).
  assert (Href : video_reference w prompt fd).
  { split; [done|]. by exists response, c, cs, ct, part. }
  rewrite (request_and_extract_reference _ _ _ Href) in Hok.
  cbn [outcome] in Hok. rewrite Hor, outcome_bind in Hok.
  assert (video_mime_type = m) as ->.
  { destruct (outcome (download_video w (file_uri fd))) as [[[|b bs]|]|e|];
      simpl in Hok; congruence. }
  exists response, c, ct, part, fd. by rewrite Hc.
Qed.

(** A successful run over HTTPS: the returned type "video/webm" is the declared type of the second part, the first one carrying no file reference. *)
Lemma C9_returned_type_is_declared_witness :
  ∃ response c ct part fd,
    generate_content (sample_world https_reference) "a cat" = inr response
    ∧ head (candidates response) = Some c
    ∧ content c = Some ct
    ∧ first_video_part (parts ct) = Some part
    ∧ file_data part = Has fd
    ∧ mime_type fd = Some "video/webm"
    ∧ "video/webm" ≠ ""
    ∧ PyStr.startswith "video/webm" "video/" = true
    ∧ fallback_taken (mime_type fd) = false.
Proof.
  apply (C9_returned_type_is_declared (sample_world https_reference)
           "a cat" "KEY" [x00; x01; x02]%byte "video/webm").
  reflexivity.
Defined.

(** The whole run when the scan selects the reference [fd]. *)
Lemma generate_veo_video_reference (w : GeminiWorld) (prompt gemini_api_key : string)
    (fd : FileData) :
  video_reference w prompt fd →
  let video_mime_type := or_default (mime_type fd) DEFAULT_VIDEO_MIME_TYPE in
  let body :=
    try_except
      (Run (ECall "model.generate_content" [prompt]
            :: EPrint ("Video generation apparently successful. File URI: "
                       +:+ PyStr.str_of_option (file_uri fd)
                       +:+ ", MIME type: " +:+ video_mime_type)
            :: EPrint "Attempting to download video from URI..."
            :: trace (step ← download_video w (file_uri fd);
                      return_video step video_mime_type))
           (outcome (step ← download_video w (file_uri fd);
                     return_video step video_mime_type)))
      any_exception
      (λ e, print ("An error occurred during Veo video generation or download: "
                   +:+ exn_msg e);; failure) in
  generate_veo_video w prompt gemini_api_key
  = Run ([EPrint (nl +:+ "--- Generating Video for Prompt: '" +:+ prompt +:+ "' ---");
          EPrint ("Using Veo model: " +:+ VEO_MODEL_NAME);
          ECall "genai.configure" [gemini_api_key];
          ECall "genai.GenerativeModel" [VEO_MODEL_NAME];
          EPrint "Sending request to Gemini API for video generation (this might take a significant amount of time)..."]
         ++ trace body)
        (outcome body).
Proof.
  intros Href. pose proof Href as [Hgm _].
  cbv zeta. rewrite generate_veo_video_accepted; [|done].
  cbv zeta. by rewrite (request_and_extract_reference _ _ _ Href).
Qed.

(** C6: for every video-reference URI that begins neither with [https://]
    nor with [gs://], the generate operation fails, reporting the unsupported
    scheme to the operator, and makes no retrieval attempt. *)
Theorem C6_unsupported_scheme (w : GeminiWorld) (prompt gemini_api_key : string)
    (fd : FileData) (u : string) :
  video_reference w prompt fd →
  file_uri fd = Some u →
  PyStr.startswith u "https://" = false →
  PyStr.startswith u "gs://" = false →
  let run := generate_veo_video w prompt gemini_api_key in
  outcome run = Returned (None, None)
  ∧ retrieval_attempts (trace run) = 0
  ∧ ∃ t, trace run
         = t ++ [EPrint ("ERROR: Unrecognized or unsupported file URI scheme: " +:+ u);
                 EPrint "The script currently supports 'https://' and 'gs://' URIs for generated videos."].
Proof.
  intros Href Hu Hhttps Hgs run. unfold run.
  rewrite (generate_veo_video_reference _ _ _ _ Href). cbv zeta.
  rewrite Hu. unfold download_video. rewrite Hhttps, Hgs.
  repeat split.
  eexists [_; _; _; _; _; _; _; _]. reflexivity.
Qed.

(** A reference with an [ftp://] URI: no retrieval call, and the run ends with the two lines about the scheme. *)
Lemma C6_unsupported_scheme_witness :
  let run := generate_veo_video (sample_world ftp_reference) "a cat" "KEY" in
  outcome run = Returned (None, None)
  ∧ retrieval_attempts (trace run) = 0
  ∧ ∃ t, trace run
         = t ++ [EPrint "ERROR: Unrecognized or unsupported file URI scheme: ftp://host/clip.mp4";
                 EPrint "The script currently supports 'https://' and 'gs://' URIs for generated videos."].
Proof.
  apply (C6_unsupported_scheme (sample_world ftp_reference) "a cat" "KEY"
           ftp_reference "ftp://host/clip.mp4"); try reflexivity.
  split; [reflexivity|].
  eexists _, _, _, _, _. repeat split; reflexivity.
Defined.

(** ** The generator: cloud-object URIs *)

Lemma split1_no_separator (sep : ascii) (s : string) :
  contains sep s = false → PyStr.split1 sep s = [s].
Proof.
  induction s as [|c s IH]; [done|]. simpl.
  intros [Hc Hs]%orb_false_iff. by rewrite Hc, IH.
Qed.

(** Without a [/] after the bucket name the unpacking of line 168 raises. *)
Lemma parse_gs_uri_no_key (u : string) :
  contains "/" (PyStr.slice_from 5 u) = false →
  parse_gs_uri u
  = raise (MkExn ValueError "not enough values to unpack (expected 2, got 1)").
Proof.
  intros H. unfold parse_gs_uri. by rewrite (split1_no_separator _ _ H).
Qed.

Lemma startswith_cons (c a : ascii) (s p : string) :
  PyStr.startswith (String c s) (String a p)
  = if ascii_dec a c then PyStr.startswith s p else false.
Proof. reflexivity. Qed.

Lemma startswith_gs_not_https (u : string) :
  PyStr.startswith u "gs://" = true → PyStr.startswith u "https://" = false.
Proof.
  destruct u as [|c u]; [done|]. rewrite !startswith_cons.
  destruct (ascii_dec "g" c) as [<-|]; [|done].
  intros _. by destruct (ascii_dec "h" "g").
Qed.

(** The cloud-object download of a URI without a key. *)
Lemma download_gcs_no_key (w : GeminiWorld) (u : string) :
  contains "/" (PyStr.slice_from 5 u) = false →
  download_gcs w u
  = if storage_installed w then
      Run [EPrint ("Downloading from GCS: " +:+ u);
           ECall "storage.Client" [];
           EPrint ("ERROR: Failed to download video from GCS URI '" +:+ u +:+ "': "
                   +:+ match storage_client w with
                       | Some e => exn_msg e
                       | None => "not enough values to unpack (expected 2, got 1)"
                       end);
           EPrint "Ensure you have 'gcloud auth application-default login' configured and permissions to access the GCS object."]
          (Returned ReturnNone)
    else
      Run [EPrint "ERROR: The 'google-cloud-storage' library is required to download from GCS URIs (gs://) but is not installed.";
           EPrint "Please install it: pip install google-cloud-storage"]
          (Returned ReturnNone).
Proof.
  intros H. unfold download_gcs. rewrite (parse_gs_uri_no_key _ H).
  destruct (storage_installed w); [|done].
  by destruct (storage_client w).
Qed.

(** A failing blob read is reported by the same handler. *)
Lemma download_gcs_blob_failure (w : GeminiWorld) (bucket key : string) (e : Exn) :
  contains "/" bucket = false →
  storage_installed w = true → storage_client w = None →
  download_as_bytes w bucket key = inl e →
  let u := "gs://" +:+ bucket +:+ "/" +:+ key in
  download_gcs w u
  = Run [EPrint ("Downloading from GCS: " +:+ u);
         ECall "storage.Client" [];
         ECall "blob.download_as_bytes" [bucket; key];
         EPrint ("ERROR: Failed to download video from GCS URI '" +:+ u +:+ "': "
                 +:+ exn_msg e);
         EPrint "Ensure you have 'gcloud auth application-default login' configured and permissions to access the GCS object."]
        (Returned ReturnNone).
Proof.
  intros Hb Hi Hc He u. unfold download_gcs. rewrite Hi, Hc.
  assert (Hparse : parse_gs_uri u = mret (bucket, key)).
  { unfold parse_gs_uri, u.
    change (PyStr.slice_from 5 ("gs://" +:+ bucket +:+ "/" +:+ key))
      with (bucket +:+ "/" +:+ key).
    assert (Hs : PyStr.split1 "/" (bucket +:+ "/" +:+ key) = [bucket; key]).
    { clear -Hb. induction bucket as [|c b IH]; [done|].
      rewrite app_cons. simpl in *.
      apply orb_false_iff in Hb as [Hc Hb]. by rewrite Hc, IH. }
    by rewrite Hs. }
  rewrite Hparse. run_code. by rewrite He.
Qed.

(** C10: for every cloud-object URI that begins with [gs://] and has no [/]
    after the bucket name, the generate operation returns the failure result
    instead of raising: the unpacking error of the bucket/key parsing is
    caught by the handler of the download and reported to the operator like
    any other failure of the cloud-object retrieval, and no blob read is
    attempted. *)
Theorem C10_gs_uri_without_key (w : GeminiWorld) (prompt gemini_api_key : string)
    (fd : FileData) (u : string) :
  video_reference w prompt fd →
  file_uri fd = Some u →
  PyStr.startswith u "gs://" = true →
  contains "/" (PyStr.slice_from 5 u) = false →
  let run := generate_veo_video w prompt gemini_api_key in
  outcome run = Returned (None, None)
  ∧ informs_operator (trace run) = true
  ∧ (∀ args, ECall "blob.download_as_bytes" args ∉ trace run)
  ∧ (storage_installed w = true → storage_client w = None →
     ∃ t, trace run
          = t ++ [EPrint ("ERROR: Failed to download video from GCS URI '" +:+ u
                          +:+ "': not enough values to unpack (expected 2, got 1)");
                  EPrint "Ensure you have 'gcloud auth application-default login' configured and permissions to access the GCS object."]).
Proof.
  intros Href Hu Hgs Hkey run. unfold run.
  rewrite (generate_veo_video_reference _ _ _ _ Href). cbv zeta.
  rewrite Hu. unfold download_video.
  rewrite (startswith_gs_not_https _ Hgs), Hgs, (download_gcs_no_key _ _ Hkey).
  destruct (storage_installed w); [destruct (storage_client w) as [e|]|].
  all: repeat split; try done.
  all: try (intros args Hin;
            repeat (apply elem_of_cons in Hin as [Hin|Hin]; [discriminate Hin|]);
            by apply elem_of_nil in Hin).
  intros _ _. eexists [_; _; _; _; _; _; _; _; _; _]. reflexivity.
Qed.

(** The reference "gs://bucketonly": the run returns the failure result. *)
Lemma C10_gs_uri_without_key_witness :
  let run := generate_veo_video (sample_world bucket_only_reference) "a cat" "KEY" in
  outcome run = Returned (None, None)
  ∧ informs_operator (trace run) = true.
Proof.
  destruct (C10_gs_uri_without_key (sample_world bucket_only_reference)
              "a cat" "KEY" bucket_only_reference "gs://bucketonly")
    as (Hout & Hinf & _); try reflexivity.
  - split; [reflexivity|].
    eexists _, _, _, _, _. repeat split; reflexivity.
  - split; [exact Hout|exact Hinf].
Defined.

(** ** The upload: one chunk *)

Lemma library_calls_app (t1 t2 : list Event) :
  library_calls (t1 ++ t2) = library_calls t1 ++ library_calls t2.
Proof. apply omap_app. Qed.

Lemma printed_app (t1 t2 : list Event) : printed (t1 ++ t2) = printed t1 ++ printed t2.
Proof. apply omap_app. Qed.

Lemma progress_reports_app (t1 t2 : list Event) :
  progress_reports (t1 ++ t2) = progress_reports t1 ++ progress_reports t2.
Proof. unfold progress_reports. by rewrite printed_app, List.filter_app. Qed.

Lemma report_progress_eq (status : option Status) (progress : Z) :
  report_progress status progress
  = Run match status with
        | Some st =>
            if (progress <? percent st)%Z
            then [EPrint (uploaded_line (percent st))] else []
        | None => []
        end
        (Returned (progress_after status progress)).
Proof.
  unfold report_progress, progress_after.
  destruct status as [st|]; [|done]. by destruct (progress <? percent st)%Z.
Qed.

Lemma report_progress_calls (status : option Status) (progress : Z) :
  library_calls (trace (report_progress status progress)) = [].
Proof.
  rewrite report_progress_eq.
  destruct status as [st|]; [|done]. by destruct (progress <? percent st)%Z.
Qed.

Lemma startswith_app (p s : string) : PyStr.startswith (p +:+ s) p = true.
Proof.
  induction p as [|a p IH]; [by destruct s|].
  rewrite app_cons, startswith_cons. by destruct (ascii_dec a a).
Qed.

Lemma progress_reports_uploaded_line (p : Z) :
  progress_reports [EPrint (uploaded_line p)] = [uploaded_line p].
Proof.
  unfold progress_reports, uploaded_line. simpl. by rewrite startswith_app.
Qed.

Lemma report_progress_reports (status : option Status) (progress : Z) :
  progress_reports (trace (report_progress status progress))
  = uploaded_line
    <$> record_highs progress
          match status with Some st => [percent st] | None => [] end.
Proof.
  rewrite report_progress_eq.
  destruct status as [st|]; [|done]. simpl.
  destruct (progress <? percent st)%Z; [|done].
  apply progress_reports_uploaded_line.
Qed.

Lemma record_highs_step (status : option Status) (progress : Z) (ps : list Z) :
  record_highs progress
    (match status with Some st => [percent st] | None => [] end ++ ps)
  = record_highs progress
      match status with Some st => [percent st] | None => [] end
    ++ record_highs (progress_after status progress) ps.
Proof.
  unfold progress_after. destruct status as [st|]; [|done]. simpl.
  by destruct (progress <? percent st)%Z.
Qed.

(** ** The upload: the chunk loop *)

Section UploadLoop.
Variable drive : DriveService.

Lemma upload_loop_pending (fuel calls : nat) (progress : Z) status :
  next_chunk drive calls = inr (status, None) →
  upload_loop (S fuel) drive calls progress
  = let rest :=
      upload_loop fuel drive (S calls) (progress_after status progress) in
    Run (ECall "request.next_chunk" []
         :: trace (report_progress status progress) ++ trace rest)
        (outcome rest).
Proof.
  intros H. cbn [upload_loop]. rewrite H. run_code.
  rewrite !report_progress_eq. run_code. by rewrite !app_nil_r.
Qed.

Lemma upload_loop_finished (fuel calls : nat) (progress : Z) status response :
  next_chunk drive calls = inr (status, Some response) →
  upload_loop (S fuel) drive calls progress
  = Run (ECall "request.next_chunk" []
         :: trace (report_progress status progress))
        (Returned (Continue response)).
Proof.
  intros H. cbn [upload_loop]. rewrite H. run_code.
  rewrite !report_progress_eq. run_code. by rewrite !app_nil_r.
Qed.

Lemma upload_loop_raised (fuel calls : nat) (progress : Z) (e : Exn) :
  next_chunk drive calls = inl e →
  upload_loop (S fuel) drive calls progress
  = Run [ECall "request.next_chunk" [];
         EPrint ("Error during chunk upload: " +:+ exn_msg e
                 +:+ ". Retrying may be necessary or check connection.")]
        (Returned ReturnNone).
Proof. intros H. cbn [upload_loop]. by rewrite H. Qed.

(** The inner handler catches everything: the loop itself never raises. *)
Lemma upload_loop_no_raise (fuel calls : nat) (progress : Z) (e : Exn) :
  outcome (upload_loop fuel drive calls progress) ≠ Raised e.
Proof.
  revert calls progress. induction fuel as [|fuel IH]; intros calls progress;
    [done|].
  destruct (next_chunk drive calls) as [e'|[status [response|]]] eqn:H.
  - by rewrite (upload_loop_raised _ _ _ _ H).
  - by rewrite (upload_loop_finished _ _ _ _ _ H).
  - rewrite (upload_loop_pending _ _ _ _ H). apply IH.
Qed.

(** [k] chunks answered without a final response: [k] requests, nothing
    but progress reports in between, and the loop goes on. *)
Lemma upload_loop_pending_run (k fuel calls : nat) (progress : Z) :
  (∀ i, i < k → ∃ status, next_chunk drive (calls + i) = inr (status, None)) →
  ∃ t progress',
    library_calls t = replicate k ("request.next_chunk", [])
    ∧ upload_loop (k + fuel) drive calls progress
      = Run (t ++ trace (upload_loop fuel drive (calls + k) progress'))
            (outcome (upload_loop fuel drive (calls + k) progress')).
Proof.
  revert calls progress. induction k as [|k IH]; intros calls progress Hk.
  - exists [], progress. split; [done|].
    rewrite Nat.add_0_r. apply M_eta.
  - destruct (Hk 0) as [status H0]; [lia|]. rewrite Nat.add_0_r in H0.
    destruct (IH (S calls) (progress_after status progress))
      as (t & progress' & Ht & Heq).
    { intros i Hi. destruct (Hk (S i)) as [st Hst]; [lia|].
      exists st. by rewrite <- Hst, Nat.add_succ_r. }
    exists (ECall "request.next_chunk" []
            :: trace (report_progress status progress) ++ t), progress'.
    split.
    + change (library_calls (?x :: ?l)) with (library_calls ([x] ++ l)).
      by rewrite !library_calls_app, report_progress_calls, Ht.
    + change (S k + fuel) with (S (k + fuel)).
      rewrite (upload_loop_pending _ _ _ _ H0). cbv zeta.
      rewrite Heq. cbn [trace outcome].
      rewrite Nat.add_succ_r. cbn [Nat.add app]. by rewrite <- app_assoc.
Qed.

(** The progress reports of the loop are the record highs of the
    percentages it receives. *)
Lemma upload_loop_reports (fuel calls : nat) (progress : Z) :
  progress_reports (trace (upload_loop fuel drive calls progress))
  = uploaded_line <$> record_highs progress (seen_percents fuel drive calls).
Proof.
  revert calls progress. induction fuel as [|fuel IH]; intros calls progress;
    [done|].
  cbn [seen_percents].
  destruct (next_chunk drive calls) as [e'|[status [response|]]] eqn:H.
  - by rewrite (upload_loop_raised _ _ _ _ H).
  - rewrite (upload_loop_finished _ _ _ _ _ H). cbn [trace].
    rewrite app_nil_r.
    change (progress_reports (?x :: ?l)) with (progress_reports ([x] ++ l)).
    by rewrite progress_reports_app, report_progress_reports.
  - rewrite (upload_loop_pending _ _ _ _ H). cbn [trace].
    change (progress_reports (?x :: ?l)) with (progress_reports ([x] ++ l)).
    rewrite !progress_reports_app, report_progress_reports, IH.
    by rewrite record_highs_step, fmap_app.
Qed.

End UploadLoop.

(** ** The upload: the whole operation *)

(** The run of [upload_to_drive] once the creation request is built, in
    terms of the run of the chunk loop. *)
Lemma upload_to_drive_created (fuel : nat) (drive : DriveService)
    (filename : string) (video_bytes : list byte) (mime_type : string)
    (folder_id : option string) :
  files_create drive = None →
  let loop := upload_loop fuel drive 0 0 in
  upload_to_drive fuel (Some drive) filename video_bytes mime_type folder_id
  = Run ([EPrint (nl +:+ "--- Uploading '" +:+ filename +:+ "' to Google Drive ---");
          ECall "MediaIoUpload" [mime_type; pretty CHUNKSIZE];
          ECall "files.create" (filename :: parents_of folder_id);
          EPrint "Starting upload..."]
         ++ trace loop
         ++ match outcome loop with
            | Returned (Continue response) =>
                [EPrint ("SUCCESS: File '" +:+ filename +:+ "' uploaded to Google Drive.");
                 EPrint ("File ID: " +:+ PyStr.str_of_option (response !! "id"));
                 EPrint ("View Link: " +:+ PyStr.str_of_option (response !! "webViewLink"))]
            | Returned ReturnNone => []
            | Raised e =>
                [EPrint ("An error occurred uploading to Drive: " +:+ exn_msg e)]
            | OutOfFuel => []
            end)
        match outcome loop with
        | Returned (Continue response) => Returned (response !! "webViewLink")
        | Returned ReturnNone => Returned None
        | Raised e => Returned None
        | OutOfFuel => OutOfFuel
        end.
Proof.
  intros Hfc loop. unfold upload_to_drive. rewrite Hfc. fold loop.
  destruct loop as [t [[response|]|e|]]; run_code; by rewrite ?app_nil_r.
Qed.

(** C4, as stated, fails: a response without the identifier but with the
    view link is not a failure; the link is returned. *)
Lemma C4_missing_id_counterexample :
  ¬ (∀ (fuel k : nat) (drive : DriveService) (filename : string)
       (video_bytes : list byte) (mime_type : string) (folder_id : option string)
       status (response : gmap string string),
       files_create drive = None →
       chunks_pending drive k →
       next_chunk drive k = inr (status, Some response) →
       k < fuel →
       response !! "id" = None ∨ response !! "webViewLink" = None →
       outcome (upload_to_drive fuel (Some drive) filename video_bytes
                  mime_type folder_id)
       = Returned None).
Proof.
  intros H.
  specialize (H 5 4 (five_chunks {[ "webViewLink" := "https://drive.example/view" ]})
                "clip.mp4" [x00; x01; x02]%byte "video/mp4" None None
                {[ "webViewLink" := "https://drive.example/view" ]}).
  assert (Hpending : chunks_pending
            (five_chunks {[ "webViewLink" := "https://drive.example/view" ]}) 4).
  { intros i Hi. simpl. destruct (decide (i < 4)); [by eexists|lia]. }
  specialize (H eq_refl Hpending eq_refl ltac:(lia) ltac:(by left)).
  vm_compute in H. discriminate H.
Qed.

(** C4, amended: after all chunks complete, the upload reads the created
    object's identifier and view link from the service response, prints both
    to the operator after the success message (an absent one prints as
    [None]) and returns the view link as read: it returns no link exactly
    when the view link is absent, and an absent identifier alone does not
    make the upload fail. *)
Theorem C4_returns_link_as_read (fuel k : nat) (drive : DriveService)
    (filename : string) (video_bytes : list byte) (mime_type : string)
    (folder_id : option string) status (response : gmap string string) :
  files_create drive = None →
  chunks_pending drive k →
  next_chunk drive k = inr (status, Some response) →
  k < fuel →
  let run :=
    upload_to_drive fuel (Some drive) filename video_bytes mime_type folder_id in
  outcome run = Returned (response !! "webViewLink")
  ∧ (outcome run = Returned None ↔ response !! "webViewLink" = None)
  ∧ ∃ t, trace run
         = t ++ [EPrint ("SUCCESS: File '" +:+ filename +:+ "' uploaded to Google Drive.");
                 EPrint ("File ID: " +:+ PyStr.str_of_option (response !! "id"));
                 EPrint ("View Link: "
                         +:+ PyStr.str_of_option (response !! "webViewLink"))].
Proof.
  intros Hfc Hpending Hlast Hfuel run. unfold run.
  rewrite (upload_to_drive_created _ _ _ _ _ _ Hfc). cbv zeta.
  destruct (upload_loop_pending_run drive k (fuel - k) 0 0)
    as (t & progress' & _ & Heq); [done|].
  replace (k + (fuel - k)) with fuel in Heq by lia.
  destruct (fuel - k) as [|rest] eqn:Hrest; [lia|].
  rewrite (upload_loop_finished _ _ _ _ _ _ Hlast) in Heq.
  rewrite Heq. cbn [trace outcome].
  repeat split; try congruence.
  eexists. by rewrite !app_assoc.
Qed.

(** Five chunks and a response with a view link and no identifier: the link is returned. *)
Lemma C4_returns_link_as_read_witness :
  outcome (upload_to_drive 5
             (Some (five_chunks {[ "webViewLink" := "https://drive.example/view" ]}))
             "clip.mp4" [x00; x01; x02]%byte "video/mp4" None)
  = Returned (Some "https://drive.example/view").
Proof.
  destruct (C4_returns_link_as_read 5 4
              (five_chunks {[ "webViewLink" := "https://drive.example/view" ]})
              "clip.mp4" [x00; x01; x02]%byte "video/mp4" None None
              {[ "webViewLink" := "https://drive.example/view" ]})
    as [Hlink _].
  - reflexivity.
  - intros i Hi. simpl. destruct (decide (i < 4)); [by eexists|lia].
  - reflexivity.
  - lia.
  - exact Hlink.
Defined.

(** C5: if a chunk transfer raises, the upload aborts at once: it returns no
    link, the error report is the last thing that happens, and the library
    calls of the run are the media object, the creation request and the
    chunk requests up to and including the failing one, so no later chunk is
    requested, nothing is retried and nothing is cleaned up. *)
Theorem C5_chunk_failure_aborts (fuel k : nat) (drive : DriveService)
    (filename : string) (video_bytes : list byte) (mime_type : string)
    (folder_id : option string) (e : Exn) :
  files_create drive = None →
  chunks_pending drive k →
  next_chunk drive k = inl e →
  k < fuel →
  let run :=
    upload_to_drive fuel (Some drive) filename video_bytes mime_type folder_id in
  outcome run = Returned None
  ∧ library_calls (trace run)
    = [("MediaIoUpload", [mime_type; pretty CHUNKSIZE]);
       ("files.create", filename :: parents_of folder_id)]
      ++ replicate (S k) ("request.next_chunk", [])
  ∧ last (trace run)
    = Some (EPrint ("Error during chunk upload: " +:+ exn_msg e
                    +:+ ". Retrying may be necessary or check connection.")).
Proof.
  intros Hfc Hpending Hraise Hfuel run. unfold run.
  rewrite (upload_to_drive_created _ _ _ _ _ _ Hfc). cbv zeta.
  destruct (upload_loop_pending_run drive k (fuel - k) 0 0)
    as (t & progress' & Ht & Heq); [done|].
  replace (k + (fuel - k)) with fuel in Heq by lia.
  destruct (fuel - k) as [|rest] eqn:Hrest; [lia|].
  rewrite (upload_loop_raised _ _ _ _ _ Hraise) in Heq.
  rewrite Heq. cbn [trace outcome].
  repeat split.
  - rewrite !library_calls_app, Ht, replicate_S_end. by rewrite app_nil_r.
  - by rewrite app_nil_r, !last_app.
Qed.

(** The second of five chunks fails: two chunk requests are made, the third to fifth never. *)
Lemma C5_chunk_failure_aborts_witness :
  let run :=
    upload_to_drive 5 (Some second_chunk_fails) "clip.mp4" [x00; x01; x02]%byte
      "video/mp4" None in
  outcome run = Returned None
  ∧ library_calls (trace run)
    = [("MediaIoUpload", ["video/mp4"; pretty CHUNKSIZE]);
       ("files.create", ["clip.mp4"]);
       ("request.next_chunk", []);
       ("request.next_chunk", [])].
Proof.
  destruct (C5_chunk_failure_aborts 5 1 second_chunk_fails "clip.mp4"
              [x00; x01; x02]%byte "video/mp4" None
              (MkExn OtherException "connection reset"))
    as (Hout & Hcalls & _).
  - reflexivity.
  - intros i Hi. simpl. destruct (decide (i = 1)); [lia|by eexists].
  - reflexivity.
  - lia.
  - split; [exact Hout|exact Hcalls].
Defined.

(** ** The upload: progress reports *)

Lemma record_highs_above (progress : Z) (ps : list Z) :
  Forall (λ p, (progress < p)%Z ∧ p ∈ ps) (record_highs progress ps).
Proof.
  revert progress. induction ps as [|p ps IH]; intros progress; simpl;
    [constructor|].
  destruct (progress <? p)%Z eqn:E.
  - apply Z.ltb_lt in E. constructor; [split; [done|apply list_elem_of_here]|].
    eapply Forall_impl; [apply IH|]. intros x [Hx Hin]. split; [lia|].
    by apply list_elem_of_further.
  - eapply Forall_impl; [apply IH|]. intros x [Hx Hin]. split; [done|].
    by apply list_elem_of_further.
Qed.

Lemma record_highs_sorted (progress : Z) (ps : list Z) :
  StronglySorted Z.lt (record_highs progress ps).
Proof.
  revert progress. induction ps as [|p ps IH]; intros progress; simpl;
    [constructor|].
  destruct (progress <? p)%Z; [|apply IH].
  constructor; [apply IH|].
  eapply Forall_impl; [apply record_highs_above|]. by intros x [Hx _].
Qed.

Lemma record_highs_NoDup (progress : Z) (ps : list Z) :
  NoDup (record_highs progress ps).
Proof.
  pose proof (record_highs_sorted progress ps) as Hs.
  induction Hs as [|x l Hs IH Hall]; constructor; [|done].
  intros Hin. rewrite Forall_forall in Hall. specialize (Hall _ Hin). lia.
Qed.

Lemma app_inj_r (s1 s2 t : string) : s1 +:+ t = s2 +:+ t → s1 = s2.
Proof.
  revert s2. induction s1 as [|c s1 IH]; intros [|c' s2] H; [done|..].
  - apply (f_equal String.length) in H.
    rewrite app_nil_l, app_cons in H. simpl in H. rewrite app_length' in H. lia.
  - apply (f_equal String.length) in H.
    rewrite app_nil_l, app_cons in H. simpl in H. rewrite app_length' in H. lia.
  - rewrite !app_cons in H. injection H as -> H. f_equal. by apply IH.
Qed.

Lemma uploaded_line_inj : Inj (=) (=) uploaded_line.
Proof.
  intros p q H. unfold uploaded_line in H.
  apply String.app_inj, app_inj_r in H. by apply (inj pretty).
Qed.

(** C8, as stated, fails: a whole-percent value the progress passes between
    two chunks is never reported. With five chunks the progress passes 1%
    on its way to 20%, and "Uploaded 1%" is not among the printed lines. *)
Lemma C8_skipped_percent_counterexample :
  ¬ (∀ (fuel : nat) (drive : DriveService) (filename : string)
       (video_bytes : list byte) (mime_type : string) (folder_id : option string)
       (p q : Z),
       files_create drive = None →
       q ∈ seen_percents fuel drive 0 →
       (0 < p ≤ q)%Z →
       uploaded_line p
       ∈ printed (trace (upload_to_drive fuel (Some drive) filename video_bytes
                           mime_type folder_id))).
Proof.
  intros H.
  specialize (H 5 (five_chunks ∅) "clip.mp4" [x00; x01; x02]%byte "video/mp4"
                None 1%Z 20%Z eq_refl).
  assert (Hseen : 20%Z ∈ seen_percents 5 (five_chunks ∅) 0)
    by apply list_elem_of_here.
  specialize (H Hseen ltac:(lia)).
  vm_compute in H.
  repeat (apply elem_of_cons in H as [H|H]; [discriminate H|]).
  by apply elem_of_nil in H.
Qed.

(** C8, amended: during a chunked upload the reported percentages are
    exactly the whole-percent values of the chunks' progress indicators that
    exceed every value reported before (and 0): they are strictly
    increasing, so no value is reported twice, and each is the progress of
    some chunk; values the progress skips between two chunks are not
    reported. *)
Theorem C8_reports_are_record_highs (fuel : nat) (drive : DriveService)
    (filename : string) (video_bytes : list byte) (mime_type : string)
    (folder_id : option string) :
  files_create drive = None →
  let run :=
    upload_to_drive fuel (Some drive) filename video_bytes mime_type folder_id in
  let reports := record_highs 0 (seen_percents fuel drive 0) in
  progress_reports (trace run) = uploaded_line <$> reports
  ∧ StronglySorted Z.lt reports
  ∧ NoDup (progress_reports (trace run))
  ∧ Forall (λ p, (0 < p)%Z ∧ p ∈ seen_percents fuel drive 0) reports.
Proof.
  intros Hfc run reports.
  assert (Hreports : progress_reports (trace run) = uploaded_line <$> reports).
  { unfold run. rewrite (upload_to_drive_created _ _ _ _ _ _ Hfc). cbv zeta.
    cbn [trace]. rewrite !progress_reports_app, upload_loop_reports.
    fold reports.
    destruct (outcome (upload_loop fuel drive 0 0)) as [[response|]|e|];
      by rewrite app_nil_r. }
  repeat split.
  - done.
  - apply record_highs_sorted.
  - rewrite Hreports. apply NoDup_fmap_2; [apply uploaded_line_inj|].
    apply record_highs_NoDup.
  - apply record_highs_above.
Qed.

(** Five chunks: 20, 40, 60 and 80 percent are reported, once each. *)
Lemma C8_reports_are_record_highs_witness :
  progress_reports
    (trace (upload_to_drive 5 (Some (five_chunks ∅)) "clip.mp4"
              [x00; x01; x02]%byte "video/mp4" None))
  = ["Uploaded 20%"; "Uploaded 40%"; "Uploaded 60%"; "Uploaded 80%"].
Proof.
  destruct (C8_reports_are_record_highs 5 (five_chunks ∅) "clip.mp4"
              [x00; x01; x02]%byte "video/mp4" None)
    as [Hreports _].
  - reflexivity.
  - rewrite Hreports. reflexivity.
Defined.

(** ** The credential store: properties *)

(** X1: with no token file and no credentials file, the credential store
    returns no service after telling the operator which file is missing. It
    only looks for the two files: nothing is written, no grant is started
    and no service is built. *)
Theorem X1_no_token_no_credentials_file (w : AuthWorld) (fs : FileSystem) :
  token_pickle fs = None →
  credentials_json fs = false →
  let run := get_google_drive_service w fs in
  outcome run = Returned (fs, None)
  ∧ library_calls (trace run)
    = [("os.path.exists", [DRIVE_TOKEN_PICKLE]);
       ("os.path.exists", [DRIVE_CREDENTIALS_JSON])]
  ∧ printed (trace run)
    = ["ERROR: Google Drive API credentials file ('credentials.json') not found.";
       "Please download it from your Google Cloud Console project and place it here."].
Proof.
  destruct fs as [tp cj]. cbn [token_pickle credentials_json].
  intros -> ->. by auth_run.
Qed.

(** An empty directory: no service, and the directory stays empty. *)
Lemma X1_no_token_no_credentials_file_witness :
  outcome (get_google_drive_service sample_auth_world no_files)
  = Returned (no_files, None).
Proof.
  destruct (X1_no_token_no_credentials_file sample_auth_world no_files)
    as [Hout _]; [reflexivity..|exact Hout].
Defined.

(** X2: a cached token whose credentials are valid is used as it is: the
    token file is read and the service is built from it, with no refresh, no
    interactive grant and no write to the token file. *)
Theorem X2_valid_token_reused (w : AuthWorld) (fs : FileSystem) (c : Credentials) :
  token_pickle fs = Some (Pickled c) →
  valid c = true →
  let run := get_google_drive_service w fs in
  outcome run = Returned (fs, built_service w c)
  ∧ library_calls (trace run)
    = [("os.path.exists", [DRIVE_TOKEN_PICKLE]);
       ("pickle.load", [DRIVE_TOKEN_PICKLE]);
       ("build", ["drive"; "v3"])].
Proof.
  destruct fs as [tp cj], c as [v ex rt].
  cbn [token_pickle credentials_json valid]. intros -> ->.
  unfold built_service. by auth_run.
Qed.

(** A valid cached token gives the service and leaves the files alone. *)
Lemma X2_valid_token_reused_witness :
  outcome (get_google_drive_service sample_auth_world
             (cached_token valid_credentials))
  = Returned (cached_token valid_credentials,
              Some (five_chunks complete_response)).
Proof.
  destruct (X2_valid_token_reused sample_auth_world
              (cached_token valid_credentials) valid_credentials)
    as [Hout _]; [reflexivity..|exact Hout].
Defined.

(** X3: expired credentials with a refresh token are refreshed, and when the
    refresh succeeds the refreshed credentials are written to the token file
    before the service is built from them; no interactive grant is started.
    The token file is rewritten even when building the service then
    fails. *)
Theorem X3_refreshed_token_persisted (w : AuthWorld) (fs : FileSystem)
    (c refreshed : Credentials) :
  token_pickle fs = Some (Pickled c) →
  valid c = false →
  refreshable c = true →
  refresh w c = inr refreshed →
  let run := get_google_drive_service w fs in
  outcome run = Returned (write_token fs refreshed, built_service w refreshed)
  ∧ library_calls (trace run)
    = [("os.path.exists", [DRIVE_TOKEN_PICKLE]);
       ("pickle.load", [DRIVE_TOKEN_PICKLE]);
       ("creds.refresh", []);
       ("pickle.dump", [DRIVE_TOKEN_PICKLE]);
       ("build", ["drive"; "v3"])].
Proof.
  destruct fs as [tp cj], c as [v ex rt]. unfold refreshable.
  cbn [token_pickle credentials_json valid expired refresh_token].
  intros -> -> [-> Hrt]%andb_true_iff Hrefresh.
  unfold built_service. auth_unfold. auth_simpl. rewrite Hrt. auth_simpl.
  rewrite Hrefresh. by auth_run.
Qed.

(** Expired credentials are replaced in the token file by the refreshed
    ones. *)
Lemma X3_refreshed_token_persisted_witness :
  outcome (get_google_drive_service sample_auth_world
             (cached_token expired_credentials))
  = Returned (cached_token valid_credentials,
              Some (five_chunks complete_response)).
Proof.
  destruct (X3_refreshed_token_persisted sample_auth_world
              (cached_token expired_credentials) expired_credentials
              valid_credentials) as [Hout _]; [reflexivity..|exact Hout].
Defined.

(** X4: when the refresh of expired credentials raises, the failure is
    reported and the token file is removed. The run then goes on without
    credentials: with no credentials file it returns no service and the
    token file stays removed; with a credentials file the interactive grant
    runs, and its credentials are written to the token file (or its
    exception leaves the function). *)
Theorem X4_failed_refresh_deletes_token (w : AuthWorld) (fs : FileSystem)
    (c : Credentials) (e : Exn) :
  token_pickle fs = Some (Pickled c) →
  valid c = false →
  refreshable c = true →
  refresh w c = inl e →
  let run := get_google_drive_service w fs in
  ("os.remove", [DRIVE_TOKEN_PICKLE]) ∈ library_calls (trace run)
  ∧ "Failed to refresh Drive token: " +:+ exn_msg e
      +:+ ". Deleting 'token.pickle' for re-auth." ∈ printed (trace run)
  ∧ outcome run
    = (if credentials_json fs then
         match run_local_server w with
         | inr granted =>
             Returned (write_token fs granted, built_service w granted)
         | inl e' => Raised e'
         end
       else Returned (remove_token fs, None)).
Proof.
  destruct fs as [tp cj], c as [v ex rt]. unfold refreshable.
  cbn [token_pickle credentials_json valid expired refresh_token].
  intros -> -> [-> Hrt]%andb_true_iff Hrefresh.
  unfold built_service. auth_unfold. auth_simpl. rewrite Hrt. auth_simpl.
  rewrite Hrefresh. destruct cj; auth_run.
  all: repeat split; try done; unfold library_calls, printed; cbn [omap];
    try in_list.
Qed.

(** A refused refresh with no credentials file: no service, and the token
    file is gone. *)
Lemma X4_failed_refresh_deletes_token_witness :
  outcome (get_google_drive_service refresh_refused
             {| token_pickle := Some (Pickled expired_credentials);
                credentials_json := false |})
  = Returned (no_files, None).
Proof.
  destruct (X4_failed_refresh_deletes_token refresh_refused
              {| token_pickle := Some (Pickled expired_credentials);
                 credentials_json := false |} expired_credentials
              (MkExn OtherException "invalid_grant"))
    as (_ & _ & Hout); [reflexivity..|exact Hout].
Defined.

(** X5: cached credentials that are not valid and cannot be refreshed (not
    expired, or without a refresh token) are used all the same: there is no
    refresh and no interactive grant, the same credentials are written back
    to the token file and the service is built from them. *)
Theorem X5_unrefreshable_credentials_reused (w : AuthWorld) (fs : FileSystem)
    (c : Credentials) :
  token_pickle fs = Some (Pickled c) →
  valid c = false →
  refreshable c = false →
  let run := get_google_drive_service w fs in
  outcome run = Returned (fs, built_service w c)
  ∧ library_calls (trace run)
    = [("os.path.exists", [DRIVE_TOKEN_PICKLE]);
       ("pickle.load", [DRIVE_TOKEN_PICKLE]);
       ("pickle.dump", [DRIVE_TOKEN_PICKLE]);
       ("build", ["drive"; "v3"])].
Proof.
  destruct fs as [tp cj], c as [v ex rt]. unfold refreshable.
  cbn [token_pickle credentials_json valid expired refresh_token].
  intros -> -> Hr.
  unfold built_service. auth_unfold. auth_simpl.
  change (match ex with true => truthy_option rt | false => false end)
    with (ex && truthy_option rt). rewrite Hr. by auth_run.
Qed.

(** Expired credentials without a refresh token still give a service. *)
Lemma X5_unrefreshable_credentials_reused_witness :
  outcome (get_google_drive_service sample_auth_world
             (cached_token stale_credentials))
  = Returned (cached_token stale_credentials,
              Some (five_chunks complete_response)).
Proof.
  destruct (X5_unrefreshable_credentials_reused sample_auth_world
              (cached_token stale_credentials) stale_credentials)
    as [Hout _]; [reflexivity..|exact Hout].
Defined.

(** X6: whenever the credential store returns a service, the token file it
    leaves behind holds exactly the credentials the service was built from,
    and the credentials file is as it was. *)
Theorem X6_service_built_from_stored_token (w : AuthWorld) (fs fs' : FileSystem)
    (service : DriveService) :
  outcome (get_google_drive_service w fs) = Returned (fs', Some service) →
  ∃ c, token_pickle fs' = Some (Pickled c)
       ∧ build w c = inr service
       ∧ credentials_json fs' = credentials_json fs.
Proof.
  auth_cases fs; try done; intros [= <- <-]; eauto.
Qed.

(** After a refresh the stored credentials are the refreshed ones. *)
Lemma X6_service_built_from_stored_token_witness :
  ∃ c, token_pickle (cached_token valid_credentials) = Some (Pickled c)
       ∧ build sample_auth_world c = inr (five_chunks complete_response)
       ∧ credentials_json (cached_token valid_credentials)
         = credentials_json (cached_token expired_credentials).
Proof.
  apply (X6_service_built_from_stored_token sample_auth_world
           (cached_token expired_credentials)).
  reflexivity.
Defined.

(** X8: the interactive grant is started only when the credentials file
    exists and no credentials are left: there was no token file, or the
    refresh of the cached credentials raised. Cached credentials that are
    merely invalid never lead to a new grant. *)
Theorem X8_grant_only_without_usable_token (w : AuthWorld) (fs : FileSystem)
    (args : list string) :
  ("InstalledAppFlow.run_local_server", args)
  ∈ library_calls (trace (get_google_drive_service w fs)) →
  credentials_json fs = true
  ∧ (token_pickle fs = None
     ∨ ∃ c e, token_pickle fs = Some (Pickled c)
              ∧ valid c = false ∧ refreshable c = true ∧ refresh w c = inl e).
Proof.
  auth_cases fs; unfold library_calls; cbn [omap]; intros Hin.
  all: repeat (apply elem_of_cons in Hin as [Hin|Hin]; [try discriminate Hin|]).
  all: try (by apply elem_of_nil in Hin).
  all: split; [done|]; try (by left).
  all: right; eexists _, _; unfold refreshable;
    cbn [valid expired refresh_token andb]; eauto.
Qed.

(** With a credentials file and no token file the grant is started. *)
Lemma X8_grant_only_without_usable_token_witness :
  credentials_json {| token_pickle := None; credentials_json := true |} = true.
Proof.
  destruct (X8_grant_only_without_usable_token sample_auth_world
              {| token_pickle := None; credentials_json := true |}
              (DRIVE_CREDENTIALS_JSON :: DRIVE_SCOPES)) as [Hcj _].
  - unfold library_calls. vm_compute. in_list.
  - exact Hcj.
Defined.


(** ** Call sequences *)

Lemma callees_app (t1 t2 : list Event) :
  callees (t1 ++ t2) = callees t1 ++ callees t2.
Proof. unfold callees. by rewrite library_calls_app, fmap_app. Qed.

Lemma callees_bind {A B} (m : M A) (f : A → M B) :
  callees (trace (m ≫= f))
  = callees (trace m)
    ++ match outcome m with
       | Returned a => callees (trace (f a))
       | _ => []
       end.
Proof.
  rewrite trace_bind. destruct (outcome m); by rewrite ?callees_app, ?app_nil_r.
Qed.

Lemma callees_try_except {A} (m : M A) (h : Exn → M A) :
  (∀ e, callees (trace (h e)) = []) →
  callees (trace (try_except m any_exception h)) = callees (trace m).
Proof.
  intros Hh. unfold try_except.
  destruct (outcome m) as [a|e|]; [done| |done]. cbn [any_exception trace].
  by rewrite callees_app, Hh, app_nil_r.
Qed.

Lemma download_video_callees (w : GeminiWorld) (file_uri : option string) :
  callees (trace (download_video w file_uri)) ∈ download_call_patterns.
Proof.
  destruct file_uri as [u|]; [|pattern_found].
  unfold download_video.
  destruct (PyStr.startswith u "https://").
  - unfold download_https.
    destruct (requests_installed w); [|pattern_found].
    run_code. destruct (requests_get w u) as [e|vb]; [|pattern_found].
    destruct e as [[] msg]; pattern_found.
  - destruct (PyStr.startswith u "gs://"); [|pattern_found].
    unfold download_gcs.
    destruct (storage_installed w); [|pattern_found].
    run_code. destruct (storage_client w) as [e|]; [pattern_found|].
    unfold parse_gs_uri.
    destruct (PyStr.split1 "/" (PyStr.slice_from 5 u)) as [|b [|k [|]]];
      [pattern_found|pattern_found| |pattern_found].
    run_cbv. destruct (download_as_bytes w b k); pattern_found.
Qed.

Lemma return_video_callees (step : Flow (list byte)) (video_mime_type : string) :
  callees (trace (return_video step video_mime_type)) = [].
Proof. by destruct step as [[|b bs]|]. Qed.

Lemma extract_video_callees (w : GeminiWorld) (ct : Content) :
  callees (trace (extract_video w ct)) ∈ download_call_patterns.
Proof.
  unfold extract_video. rewrite callees_bind, find_video_part_trace.
  destruct (outcome (find_video_part (parts ct))) as [[part|]|e|];
    [|pattern_found..].
  unfold get_file_data.
  destruct (file_data part) as [| |fd]; [pattern_found|pattern_found|].
  rewrite mret_bind, !print_bind. cbn [trace app].
  change (callees (?a :: ?b :: ?t)) with (callees t).
  rewrite callees_bind.
  replace (match outcome (download_video w (file_uri fd)) with
           | Returned a => callees (trace (return_video a _))
           | _ => []
           end) with (@nil string).
  - rewrite app_nil_r. apply download_video_callees.
  - destruct (outcome (download_video w (file_uri fd))); [|done..].
    by rewrite return_video_callees.
Qed.

Lemma request_and_extract_callees (w : GeminiWorld) (prompt : string) :
  ∃ l, l ∈ download_call_patterns
       ∧ callees (trace (request_and_extract w prompt))
         = "model.generate_content" :: l.
Proof.
  unfold request_and_extract.
  destruct (generate_content w prompt) as [e|response].
  { exists []. split; [pattern_found|done]. }
  rewrite call_answers, (bind_returned _ _ response); [|done]. cbn [trace app].
  change (callees (ECall ?c ?a :: ?t)) with (c :: callees t).
  destruct (candidates response) as [|c cs];
    [exists []; split; [pattern_found|done]|].
  destruct (content c) as [ct|];
    [|exists []; split; [pattern_found|done]].
  destruct (parts ct) as [|part ps];
    [exists []; split; [pattern_found|done]|].
  eexists. split; [apply extract_video_callees|done].
Qed.

(** The library calls of a generation, whatever the backend answers. *)
Lemma generate_veo_video_callees (w : GeminiWorld) (prompt gemini_api_key : string) :
  callees (trace (generate_veo_video w prompt gemini_api_key))
  ∈ generator_call_patterns.
Proof.
  destruct (generative_model w) as [e|] eqn:Hgm.
  - unfold generate_veo_video. rewrite Hgm. pattern_found.
  - rewrite generate_veo_video_accepted; [|done]. cbn [trace].
    rewrite callees_app, callees_try_except; [|done].
    destruct (request_and_extract_callees w prompt) as (l & Hl & ->).
    unfold download_call_patterns in Hl.
    rewrite !elem_of_cons, elem_of_nil in Hl.
    destruct Hl as [-> | [-> | [-> | [-> | []]]]]; pattern_found.
Qed.

(** ** The generator: more properties *)

(** X10: whatever the backend answers, the library calls of a generation
    are an initial part of one of two sequences: configure the client,
    create the model, send the request, download over HTTPS; or configure
    the client, create the model, send the request, create the storage
    client, read the blob. So no call is made twice, nothing is retried, no
    download precedes the request, and the two download schemes are never
    both tried. *)
Theorem X10_generation_call_order (w : GeminiWorld)
    (prompt gemini_api_key : string) :
  ∃ order, order ∈ generation_call_orders
           ∧ callees (trace (generate_veo_video w prompt gemini_api_key))
             `prefix_of` order.
Proof.
  pose proof (generate_veo_video_callees w prompt gemini_api_key) as H.
  unfold generator_call_patterns in H. rewrite !elem_of_cons, elem_of_nil in H.
  destruct H as [-> | [-> | [-> | [-> | [-> | []]]]]].
  1-3: exists ["genai.configure"; "genai.GenerativeModel";
               "model.generate_content"; "requests.get"];
       (split; [apply list_elem_of_here|]).
  4-5: exists ["genai.configure"; "genai.GenerativeModel";
               "model.generate_content"; "storage.Client";
               "blob.download_as_bytes"];
       (split; [apply list_elem_of_further, list_elem_of_here|]).
  - by exists ["model.generate_content"; "requests.get"].
  - by exists ["requests.get"].
  - by exists [].
  - by exists ["blob.download_as_bytes"].
  - by exists [].
Qed.

Lemma video_reference_declared (w : GeminiWorld) (prompt : string) (fd : FileData) :
  video_reference w prompt fd →
  ∃ m, mime_type fd = Some m
       ∧ PyStr.startswith m "video/" = true
       ∧ or_default (mime_type fd) DEFAULT_VIDEO_MIME_TYPE = m.
Proof.
  intros (_ & response & c & cs & ct & part & _ & _ & _ & Hsel & Hfd).
  apply find_video_part_selected in Hsel as (_ & _ & Hd & _).
  apply declares_video_type in Hd as (fd' & m & Hfd' & Hm & Hv & _ & _ & Hor).
  rewrite Hfd in Hfd'. injection Hfd' as <-. by exists m.
Qed.

(** X11: a reference with an [https://] URI, the requests library installed
    and a download that answers with a non-empty body: the generation
    returns exactly these bytes with the declared content type, and the only
    retrieval call is one [requests.get] on that URI. *)
Theorem X11_https_download (w : GeminiWorld) (prompt gemini_api_key : string)
    (fd : FileData) (u : string) (b : byte) (bs : list byte) :
  video_reference w prompt fd →
  file_uri fd = Some u →
  PyStr.startswith u "https://" = true →
  requests_installed w = true →
  requests_get w u = inr (b :: bs) →
  let run := generate_veo_video w prompt gemini_api_key in
  ∃ m, mime_type fd = Some m
       ∧ outcome run = Returned (Some (b :: bs), Some m)
       ∧ List.filter is_retrieval (library_calls (trace run))
         = [("requests.get", [u])].
Proof.
  intros Href Hu Hhttps Hinst Hget run. unfold run.
  destruct (video_reference_declared _ _ _ Href) as (m & Hm & _ & Hor).
  exists m. split; [done|].
  rewrite (generate_veo_video_reference _ _ _ _ Href). cbv zeta.
  rewrite Hor, Hu. unfold download_video. rewrite Hhttps.
  unfold download_https. rewrite Hinst. run_cbv. rewrite Hget. by run_cbv.
Qed.

Lemma X11_https_download_witness :
  let run := generate_veo_video (sample_world https_reference) "a cat" "KEY" in
  ∃ m, mime_type https_reference = Some m
       ∧ outcome run = Returned (Some [x00; x01; x02]%byte, Some m)
       ∧ List.filter is_retrieval (library_calls (trace run))
         = [("requests.get", ["https://host/clip.webm"])].
Proof.
  apply (X11_https_download (sample_world https_reference) "a cat" "KEY"
           https_reference "https://host/clip.webm" x00 [x01; x02]%byte);
    try reflexivity.
  split; [reflexivity|].
  eexists _, _, _, _, _. repeat split; reflexivity.
Defined.

(** X12: when the download step hands back an empty body, the generation
    does not return it: the result is the failure pair and the last thing
    the operator reads is that the bytes could not be retrieved. *)
Theorem X12_empty_download_is_failure (w : GeminiWorld)
    (prompt gemini_api_key : string) (fd : FileData) :
  video_reference w prompt fd →
  outcome (download_video w (file_uri fd)) = Returned (Continue []) →
  let run := generate_veo_video w prompt gemini_api_key in
  outcome run = Returned (None, None)
  ∧ last (trace run)
    = Some (EPrint "ERROR: Video bytes could not be retrieved after URI processing.").
Proof.
  intros Href Hdl run. unfold run.
  rewrite (generate_veo_video_reference _ _ _ _ Href). cbv zeta.
  rewrite (bind_returned _ _ _ Hdl). cbn [return_video].
  rewrite print_bind. cbn [trace outcome].
  erewrite try_except_returned by reflexivity.
  split; [done|]. cbn [trace failure mret M_ret].
  change (?a :: ?b :: ?c :: ?t ++ [?x]) with ([a; b; c] ++ t ++ [x]).
  by rewrite !app_assoc, last_snoc.
Qed.

Lemma X12_empty_download_is_failure_witness :
  let run := generate_veo_video (https_world true (inr [])) "a cat" "KEY" in
  outcome run = Returned (None, None)
  ∧ last (trace run)
    = Some (EPrint "ERROR: Video bytes could not be retrieved after URI processing.").
Proof.
  apply (X12_empty_download_is_failure (https_world true (inr [])) "a cat" "KEY"
           https_reference); [|reflexivity].
  split; [reflexivity|].
  eexists _, _, _, _, _. repeat split; reflexivity.
Defined.



Lemma parse_gs_uri_bucket_key (bucket key : string) :
  contains "/" bucket = false →
  parse_gs_uri ("gs://" +:+ bucket +:+ "/" +:+ key) = mret (bucket, key).
Proof.
  intros Hb. unfold parse_gs_uri.
  change (PyStr.slice_from 5 ("gs://" +:+ bucket +:+ "/" +:+ key))
    with (bucket +:+ "/" +:+ key).
  assert (Hs : PyStr.split1 "/" (bucket +:+ "/" +:+ key) = [bucket; key]).
  { induction bucket as [|c b IH]; [done|].
    rewrite app_cons. simpl in *.
    apply orb_false_iff in Hb as [Hc Hb]. by rewrite Hc, IH. }
  by rewrite Hs.
Qed.

(** X14: a reference [gs://bucket/key] whose bucket name holds no slash,
    with the storage library installed, a client that can be created and a
    blob read that answers with a non-empty body: the blob is read from
    exactly that bucket and key (the key is everything after the first
    slash, further slashes included), and the generation returns these
    bytes with the declared content type. *)
Theorem X14_gs_download (w : GeminiWorld) (prompt gemini_api_key : string)
    (fd : FileData) (bucket key : string) (b : byte) (bs : list byte) :
  video_reference w prompt fd →
  file_uri fd = Some ("gs://" +:+ bucket +:+ "/" +:+ key) →
  contains "/" bucket = false →
  storage_installed w = true →
  storage_client w = None →
  download_as_bytes w bucket key = inr (b :: bs) →
  let run := generate_veo_video w prompt gemini_api_key in
  ∃ m, mime_type fd = Some m
       ∧ outcome run = Returned (Some (b :: bs), Some m)
       ∧ List.filter is_retrieval (library_calls (trace run))
         = [("storage.Client", []); ("blob.download_as_bytes", [bucket; key])].
Proof.
  intros Href Hu Hb Hinst Hclient Hget run. unfold run.
  destruct (video_reference_declared _ _ _ Href) as (m & Hm & _ & Hor).
  exists m. split; [done|].
  rewrite (generate_veo_video_reference _ _ _ _ Href). cbv zeta.
  assert (Hgs : PyStr.startswith ("gs://" +:+ bucket +:+ "/" +:+ key) "gs://"
                 = true) by apply startswith_app.
  rewrite Hor, Hu. unfold download_video.
  rewrite (startswith_gs_not_https _ Hgs), Hgs.
  unfold download_gcs. rewrite Hinst, Hclient, (parse_gs_uri_bucket_key _ _ Hb).
  run_cbv. rewrite Hget. by run_cbv.
Qed.

Lemma X14_gs_download_witness :
  let run := generate_veo_video (sample_world gs_reference) "a cat" "KEY" in
  ∃ m, mime_type gs_reference = Some m
       ∧ outcome run = Returned (Some [x00; x01; x02]%byte, Some m)
       ∧ List.filter is_retrieval (library_calls (trace run))
         = [("storage.Client", []);
            ("blob.download_as_bytes", ["bucket"; "videos/clip.mp4"])].
Proof.
  apply (X14_gs_download (sample_world gs_reference) "a cat" "KEY" gs_reference
           "bucket" "videos/clip.mp4" x00 [x01; x02]%byte);
    try reflexivity.
  split; [reflexivity|].
  eexists _, _, _, _, _. repeat split; reflexivity.
Defined.

(** X15: a failing HTTPS download always ends the generation with the
    failure pair, and which handler speaks depends on the class of the
    exception: a [RequestException] gets the message of the download block,
    naming the URI; any other exception passes that block and gets the
    message of the outer handler. *)
Theorem X15_https_error_handlers (w : GeminiWorld) (prompt gemini_api_key : string)
    (fd : FileData) (u : string) (e : Exn) :
  video_reference w prompt fd →
  file_uri fd = Some u →
  PyStr.startswith u "https://" = true →
  requests_installed w = true →
  requests_get w u = inl e →
  let run := generate_veo_video w prompt gemini_api_key in
  outcome run = Returned (None, None)
  ∧ last (trace run)
    = Some (EPrint
              (if is_request_exception e
               then "ERROR: Failed to download video from HTTPS URI '" +:+ u
                    +:+ "': " +:+ exn_msg e
               else "An error occurred during Veo video generation or download: "
                    +:+ exn_msg e)).
Proof.
  intros Href Hu Hhttps Hinst Hget run. unfold run.
  rewrite (generate_veo_video_reference _ _ _ _ Href). cbv zeta.
  rewrite Hu. unfold download_video. rewrite Hhttps.
  unfold download_https. rewrite Hinst. run_cbv. rewrite Hget. run_cbv.
  by destruct (is_request_exception e).
Qed.

Lemma X15_https_error_handlers_witness :
  let run :=
    generate_veo_video
      (https_world true (inl (MkExn OtherException "out of memory")))
      "a cat" "KEY" in
  outcome run = Returned (None, None)
  ∧ last (trace run)
    = Some (EPrint ("An error occurred during Veo video generation or download: "
                    +:+ "out of memory")).
Proof.
  apply (X15_https_error_handlers
           (https_world true (inl (MkExn OtherException "out of memory")))
           "a cat" "KEY" https_reference "https://host/clip.webm"
           (MkExn OtherException "out of memory"));
    try reflexivity.
  split; [reflexivity|].
  eexists _, _, _, _, _. repeat split; reflexivity.
Defined.

(** X16: a response without candidates, or whose first candidate has no
    content or no parts, makes the generation fail without any retrieval
    call; the last two lines printed are the error and the response
    itself. *)
Theorem X16_empty_response (w : GeminiWorld) (prompt gemini_api_key : string)
    (response : Response) :
  generative_model w = None →
  generate_content w prompt = inr response →
  candidates response = []
  ∨ (∃ c cs, candidates response = c :: cs
             ∧ (content c = None
                ∨ ∃ ct, content c = Some ct ∧ parts ct = [])) →
  let run := generate_veo_video w prompt gemini_api_key in
  outcome run = Returned (None, None)
  ∧ retrieval_attempts (trace run) = 0
  ∧ ∃ t, printed (trace run)
         = t ++ ["ERROR: No valid candidates or content parts found in the Gemini response.";
                 "Response details: " +:+ response_repr response].
Proof.
  intros Hgm Hgc Hshape run. unfold run.
  rewrite generate_veo_video_accepted; [|done]. cbv zeta.
  unfold request_and_extract. rewrite Hgc, call_answers.
  rewrite (bind_returned _ _ response); [|done].
  assert (Hnc : match candidates response with
                | [] => no_candidates response
                | c :: _ =>
                    match content c with
                    | Some ct =>
                        match parts ct with
                        | [] => no_candidates response
                        | _ :: _ => extract_video w ct
                        end
                    | None => no_candidates response
                    end
                end = no_candidates response).
  { destruct Hshape as [-> | (c & cs & -> & [-> | (ct & -> & ->)])]; done. }
  rewrite Hnc. repeat split.
  eexists [_; _; _]. reflexivity.
Qed.

Lemma X16_empty_response_witness :
  let run := generate_veo_video (response_world no_candidates_response) "a cat" "KEY" in
  outcome run = Returned (None, None)
  ∧ retrieval_attempts (trace run) = 0
  ∧ ∃ t, printed (trace run)
         = t ++ ["ERROR: No valid candidates or content parts found in the Gemini response.";
                 "Response details: " +:+ response_repr no_candidates_response].
Proof.
  apply (X16_empty_response (response_world no_candidates_response) "a cat" "KEY"
           no_candidates_response); try reflexivity.
  left; reflexivity.
Defined.

(** On well-formed parts the scan is the search for the first part that
    declares a video type. *)
Lemma find_video_part_well_formed (ps : list Part) :
  forallb well_formed_part ps = true →
  find_video_part ps = Run [] (Returned (first_video_part ps)).
Proof.
  induction ps as [|part ps IH]; [done|]. cbn [forallb].
  intros [Hp Hps]%andb_true_iff. cbn [find_video_part].
  unfold first_video_part. cbn [List.find].
  unfold part_is_video, declares_video, well_formed_part in *.
  destruct (file_data part) as [| |fd]; try done.
  - rewrite mret_bind. by apply IH.
  - destruct (mime_type fd) as [m|]; [|done]. rewrite mret_bind.
    destruct (PyStr.startswith m "video/"); [done|by apply IH].
Qed.

(** X17: a response whose parts are well formed and none of which declares
    a [video/] type makes the generation fail without any retrieval call;
    the last two lines printed are the error and the content of the first
    candidate. *)
Theorem X17_no_video_part (w : GeminiWorld) (prompt gemini_api_key : string)
    (response : Response) (c : Candidate) (cs : list Candidate) (ct : Content) :
  generative_model w = None →
  generate_content w prompt = inr response →
  candidates response = c :: cs →
  content c = Some ct →
  parts ct ≠ [] →
  forallb well_formed_part (parts ct) = true →
  first_video_part (parts ct) = None →
  let run := generate_veo_video w prompt gemini_api_key in
  outcome run = Returned (None, None)
  ∧ retrieval_attempts (trace run) = 0
  ∧ ∃ t, printed (trace run)
         = t ++ ["ERROR: Could not find video data (as file_data) in the Gemini response.";
                 "Full response candidate content: " +:+ content_repr ct].
Proof.
  intros Hgm Hgc Hc Hct Hparts Hwf Hnone run. unfold run.
  rewrite generate_veo_video_accepted; [|done]. cbv zeta.
  unfold request_and_extract. rewrite Hgc, call_answers.
  rewrite (bind_returned _ _ response); [|done].
  rewrite Hc, Hct. destruct (parts ct) as [|p ps] eqn:Hps; [done|].
  unfold extract_video.
  rewrite Hps, (find_video_part_well_formed _ Hwf), Hnone, returned_bind.
  repeat split. eexists [_; _; _]. reflexivity.
Qed.

Lemma X17_no_video_part_witness :
  let run := generate_veo_video (response_world text_only_response) "a cat" "KEY" in
  outcome run = Returned (None, None)
  ∧ retrieval_attempts (trace run) = 0
  ∧ ∃ t, printed (trace run)
         = t ++ ["ERROR: Could not find video data (as file_data) in the Gemini response.";
                 "Full response candidate content: " +:+ "parts { text: ... }"].
Proof.
  apply (X17_no_video_part (response_world text_only_response) "a cat" "KEY"
           text_only_response
           {| content := Some {| parts := [ {| file_data := Missing |} ];
                                 content_repr := "parts { text: ... }" |} |}
           []
           {| parts := [ {| file_data := Missing |} ];
              content_repr := "parts { text: ... }" |});
    try reflexivity.
  discriminate.
Defined.

(** ** The upload: more properties *)

Lemma report_progress_callees (status : option Status) (progress : Z) :
  callees (trace (report_progress status progress)) = [].
Proof. unfold callees. by rewrite report_progress_calls. Qed.

Lemma upload_loop_callees (drive : DriveService) (fuel calls : nat) (progress : Z) :
  ∃ n, n ≤ fuel
       ∧ callees (trace (upload_loop fuel drive calls progress))
         = replicate n "request.next_chunk".
Proof.
  revert calls progress. induction fuel as [|fuel IH]; intros calls progress.
  { by exists 0. }
  destruct (next_chunk drive calls) as [e|[status [response|]]] eqn:H.
  - rewrite (upload_loop_raised _ _ _ _ _ H). exists 1. split; [lia|done].
  - rewrite (upload_loop_finished _ _ _ _ _ _ H). exists 1. split; [lia|].
    cbn [trace]. change (callees (ECall ?c ?a :: ?t)) with (c :: callees t).
    by rewrite report_progress_callees.
  - rewrite (upload_loop_pending _ _ _ _ _ H). cbv zeta. cbn [trace].
    destruct (IH (S calls) (progress_after status progress)) as (n & Hn & Heq).
    exists (S n). split; [lia|].
    change (callees (ECall ?c ?a :: ?t)) with (c :: callees t).
    by rewrite callees_app, report_progress_callees, Heq.
Qed.

Lemma upload_to_drive_callees (fuel : nat) (drive : DriveService)
    (filename : string) (video_bytes : list byte) (mime_type : string)
    (folder_id : option string) :
  ∃ n, n ≤ fuel
       ∧ callees (trace (upload_to_drive fuel (Some drive) filename video_bytes
                           mime_type folder_id))
         = "MediaIoUpload" :: "files.create" :: replicate n "request.next_chunk".
Proof.
  destruct (files_create drive) as [e|] eqn:Hfc.
  - exists 0. split; [lia|]. unfold upload_to_drive. by rewrite Hfc.
  - rewrite (upload_to_drive_created _ _ _ _ _ _ Hfc). cbv zeta. cbn [trace].
    destruct (upload_loop_callees drive fuel 0 0) as (n & Hn & Heq).
    exists n. split; [done|].
    change (callees ([?p; ECall ?c1 ?a1; ECall ?c2 ?a2; ?q] ++ ?t))
      with (c1 :: c2 :: callees t).
    rewrite callees_app, Heq.
    by destruct (outcome (upload_loop fuel drive 0 0)) as [[response|]|e|];
      rewrite app_nil_r.
Qed.

(** X18: when the creation request is refused, no chunk is requested: the
    upload returns no link, the only calls are the construction of the media
    body and the creation request, which carries the file name and the
    parent folder if one is given, and the operator reads the message of
    the exception last. *)
Theorem X18_failed_create_requests_no_chunk (fuel : nat) (drive : DriveService)
    (filename : string) (video_bytes : list byte) (mime_type : string)
    (folder_id : option string) (e : Exn) :
  files_create drive = Some e →
  let run :=
    upload_to_drive fuel (Some drive) filename video_bytes mime_type folder_id in
  outcome run = Returned None
  ∧ library_calls (trace run)
    = [("MediaIoUpload", [mime_type; pretty CHUNKSIZE]);
       ("files.create", filename :: parents_of folder_id)]
  ∧ last (trace run)
    = Some (EPrint ("An error occurred uploading to Drive: " +:+ exn_msg e)).
Proof. intros Hfc run. unfold run, upload_to_drive. by rewrite Hfc. Qed.

Lemma X18_failed_create_requests_no_chunk_witness :
  let run :=
    upload_to_drive 10 (Some create_refused) "clip.mp4" [x00]%byte "video/mp4"
      (Some "folder") in
  outcome run = Returned None
  ∧ library_calls (trace run)
    = [("MediaIoUpload", ["video/mp4"; pretty CHUNKSIZE]);
       ("files.create", ["clip.mp4"; "folder"])]
  ∧ last (trace run)
    = Some (EPrint ("An error occurred uploading to Drive: "
                    +:+ "403 insufficient permissions")).
Proof.
  apply (X18_failed_create_requests_no_chunk 10 create_refused "clip.mp4"
           [x00]%byte "video/mp4" (Some "folder")
           (MkExn OtherException "403 insufficient permissions")).
  reflexivity.
Defined.

(** X19: the calls of an upload are an initial part of the sequence:
    construct the media body, send the one creation request, then chunk
    requests only. However the upload ends, nothing is created twice and
    nothing is deleted or cleaned up; without a service nothing is called
    at all. *)
Theorem X19_upload_call_order (fuel : nat) (drive_service : option DriveService)
    (filename : string) (video_bytes : list byte) (mime_type : string)
    (folder_id : option string) :
  ∃ n, callees (trace (upload_to_drive fuel drive_service filename video_bytes
                         mime_type folder_id))
       `prefix_of`
       "MediaIoUpload" :: "files.create" :: replicate n "request.next_chunk"
  ∧ (drive_service = None →
     callees (trace (upload_to_drive fuel drive_service filename video_bytes
                       mime_type folder_id)) = []).
Proof.
  destruct drive_service as [drive|].
  - destruct (upload_to_drive_callees fuel drive filename video_bytes mime_type
                folder_id) as (n & Hn & Heq).
    exists n. split; [|done]. by rewrite Heq.
  - exists 0. split; [|done]. by eexists.
Qed.

(** ** The command line: properties *)

Lemma count_calls_callees (c : string) (t : list Event) :
  count_calls c t = count_in c (callees t).
Proof.
  unfold count_calls, count_in, callees.
  induction (library_calls t) as [|x l IH]; [done|].
  cbn [List.filter fmap list_fmap]. destruct (String.eqb x.1 c); simpl; by rewrite IH.
Qed.

Lemma count_in_app (c : string) (l1 l2 : list string) :
  count_in c (l1 ++ l2) = count_in c l1 + count_in c l2.
Proof. unfold count_in. by rewrite List.filter_app, length_app. Qed.

Lemma count_in_absent (c : string) (l : list string) :
  c ∉ l → count_in c l = 0.
Proof.
  unfold count_in. induction l as [|x l IH]; [done|].
  intros [Hx Hl]%not_elem_of_cons. cbn [List.filter].
  destruct (String.eqb x c) eqn:E; [|by apply IH].
  apply String.eqb_eq in E. by subst.
Qed.

Lemma generate_veo_video_result (w : GeminiWorld) (prompt gemini_api_key : string) :
  outcome (generate_veo_video w prompt gemini_api_key) = Returned (None, None)
  ∨ ∃ b bs m,
      outcome (generate_veo_video w prompt gemini_api_key)
      = Returned (Some (b :: bs), Some m)
      ∧ PyStr.truthy m = true.
Proof.
  destruct (generative_model w) as [e|] eqn:Hgm.
  - left. unfold generate_veo_video. by rewrite Hgm.
  - rewrite generate_veo_video_accepted; [|done]. cbv zeta. cbn [outcome].
    destruct (outer_handler_ok _ (request_and_extract_ok w prompt))
      as [Hs | [Ho _]].
    + right. destruct Hs as (vb & m & Ho & Hne & Hv).
      destruct vb as [|b bs]; [done|]. exists b, bs, m. split; [done|].
      apply truthy_iff. intros ->. discriminate Hv.
    + by left.
Qed.

Lemma choose_output_filename_eq (env : Environment) (args : Args)
    (video_mime_type : string) :
  outcome (choose_output_filename env args video_mime_type)
  = Returned (determine_output_filename (output_filename args) (prompt args)
                video_mime_type (strftime env))
  ∧ (callees (trace (choose_output_filename env args video_mime_type)) = []
     ∨ callees (trace (choose_output_filename env args video_mime_type))
       = ["time.strftime"]).
Proof.
  unfold choose_output_filename, determine_output_filename.
  destruct (output_filename args) as [name|]; [|by split; [|right]].
  destruct (PyStr.truthy name); by split; [|auto].
Qed.

Lemma credential_store_calls (w : AuthWorld) (fs : FileSystem) :
  Forall (λ c, c ∈ credential_store_callees)
    (callees (trace (get_google_drive_service w fs)))
  ∧ count_in "InstalledAppFlow.run_local_server"
      (callees (trace (get_google_drive_service w fs))) ≤ 1.
Proof.
  auth_cases fs; (split; [repeat constructor; vm_compute; in_list|vm_compute; lia]).
Qed.

Lemma main_eq (fuel : nat) (env : Environment) (fs : FileSystem) (args : Args) :
  let rest :=
    match getenv env with
    | Some gemini_api_key =>
        if PyStr.truthy gemini_api_key
        then main_with_key fuel env fs args gemini_api_key
        else missing_api_key;; mret fs
    | None => missing_api_key;; mret fs
    end in
  main fuel env fs args
  = Run (ECall "os.getenv" [GEMINI_API_KEY_ENV_VAR] :: trace rest) (outcome rest).
Proof. done. Qed.

Lemma main_with_key_eq (fuel : nat) (env : Environment) (fs : FileSystem)
    (args : Args) (gemini_api_key : string) :
  let auth := get_google_drive_service (credential_store env) fs in
  main_with_key fuel env fs args gemini_api_key
  = match outcome auth with
    | Returned (fs', None) =>
        Run (EPrint "--- Authenticating with Google Drive ---"
             :: trace auth
             ++ [EPrint "Failed to authenticate with Google Drive. Exiting."])
            (Returned fs')
    | Returned (fs', Some drive_service) =>
        let work :=
          generate_and_upload fuel env args gemini_api_key drive_service in
        Run (EPrint "--- Authenticating with Google Drive ---"
             :: trace auth ++ trace work)
            match outcome work with
            | Returned _ => Returned fs'
            | Raised e => Raised e
            | OutOfFuel => OutOfFuel
            end
    | Raised e =>
        Run (EPrint "--- Authenticating with Google Drive ---" :: trace auth)
            (Raised e)
    | OutOfFuel =>
        Run (EPrint "--- Authenticating with Google Drive ---" :: trace auth)
            OutOfFuel
    end.
Proof.
  cbv zeta. unfold main_with_key. rewrite print_bind.
  destruct (get_google_drive_service (credential_store env) fs)
    as [t [[fs' [svc|]]|e|]]; cbn [trace outcome]; run_code; try done.
  destruct (generate_and_upload fuel env args gemini_api_key svc)
    as [t' [[]|e|]]; run_code; by rewrite ?app_nil_r.
Qed.

Lemma generate_and_upload_failed (fuel : nat) (env : Environment) (args : Args)
    (gemini_api_key : string) (drive_service : DriveService) :
  outcome (generate_veo_video (gemini env) (prompt args) gemini_api_key)
  = Returned (None, None) →
  generate_and_upload fuel env args gemini_api_key drive_service
  = Run (trace (generate_veo_video (gemini env) (prompt args) gemini_api_key)
         ++ [EPrint "Video generation or download failed. Exiting."])
        (Returned tt).
Proof.
  intros Ho. unfold generate_and_upload. by rewrite (bind_returned _ _ _ Ho).
Qed.

Lemma generate_and_upload_success (fuel : nat) (env : Environment) (args : Args)
    (gemini_api_key : string) (drive_service : DriveService)
    (b : byte) (bs : list byte) (video_mime_type : string) :
  outcome (generate_veo_video (gemini env) (prompt args) gemini_api_key)
  = Returned (Some (b :: bs), Some video_mime_type) →
  PyStr.truthy video_mime_type = true →
  let upload :=
    upload_to_drive fuel (Some drive_service)
      (determine_output_filename (output_filename args) (prompt args)
         video_mime_type (strftime env))
      (b :: bs) video_mime_type (folder_id args) in
  generate_and_upload fuel env args gemini_api_key drive_service
  = Run (trace (generate_veo_video (gemini env) (prompt args) gemini_api_key)
         ++ trace (choose_output_filename env args video_mime_type)
         ++ trace upload
         ++ match outcome upload with
            | Returned (Some link) =>
                [EPrint (nl +:+
                   (if PyStr.truthy link
                    then "Process complete! Video available at: " +:+ link
                    else "Process completed, but upload to Drive may have failed or was skipped."))]
            | Returned None =>
                [EPrint (nl +:+ "Process completed, but upload to Drive may have failed or was skipped.")]
            | _ => []
            end)
        match outcome upload with
        | Returned _ => Returned tt
        | Raised e => Raised e
        | OutOfFuel => OutOfFuel
        end.
Proof.
  intros Ho Ht upload. unfold generate_and_upload.
  rewrite (bind_returned _ _ _ Ho). cbn beta iota. rewrite Ht.
  destruct (choose_output_filename_eq env args video_mime_type) as [Hname _].
  rewrite (bind_returned _ _ _ Hname). cbn [trace outcome].
  unfold upload_and_report. fold upload.
  destruct upload as [t [[link|]|e|]]; run_code; rewrite ?app_nil_r; try done.
  by destruct (PyStr.truthy link).
Qed.

(** X20: without an API key in the environment (unset or empty) [main]
    stops at once: the lookup of the variable is its only call, so neither
    the credential store nor the generator nor the upload is reached, the
    files are left as they were, and the operator reads the two lines that
    name the variable. *)
Theorem X20_missing_api_key (fuel : nat) (env : Environment) (fs : FileSystem)
    (args : Args) :
  truthy_option (getenv env) = false →
  let run := main fuel env fs args in
  outcome run = Returned fs
  ∧ library_calls (trace run) = [("os.getenv", [GEMINI_API_KEY_ENV_VAR])]
  ∧ printed (trace run)
    = ["ERROR: Google Gemini API key not found in environment variable 'GOOGLE_GEMINI_API_KEY'.";
       "Please set it: export GOOGLE_GEMINI_API_KEY=" +:+ dq +:+ "YOUR_API_KEY" +:+ dq].
Proof.
  intros Hkey run. unfold run. rewrite main_eq. cbv zeta.
  destruct (getenv env) as [key|]; [|done].
  cbn [truthy_option] in Hkey. by rewrite Hkey.
Qed.

Lemma X20_missing_api_key_witness :
  let run :=
    main 10 (sample_environment (Some "") sample_auth_world https_reference)
      (cached_token valid_credentials) sample_args in
  outcome run = Returned (cached_token valid_credentials)
  ∧ library_calls (trace run) = [("os.getenv", [GEMINI_API_KEY_ENV_VAR])]
  ∧ printed (trace run)
    = ["ERROR: Google Gemini API key not found in environment variable 'GOOGLE_GEMINI_API_KEY'.";
       "Please set it: export GOOGLE_GEMINI_API_KEY=" +:+ dq +:+ "YOUR_API_KEY" +:+ dq].
Proof.
  apply (X20_missing_api_key 10
           (sample_environment (Some "") sample_auth_world https_reference)
           (cached_token valid_credentials) sample_args).
  reflexivity.
Defined.

(** X21: with an API key, when the credential store gives no service,
    [main] stops after saying so: it returns normally, leaving the files as
    the credential store left them, and everything it has called is the
    lookup of the key and calls of the credential store, so no generation
    is requested. *)
Theorem X21_failed_authentication_stops (fuel : nat) (env : Environment)
    (fs fs' : FileSystem) (args : Args) :
  truthy_option (getenv env) = true →
  outcome (get_google_drive_service (credential_store env) fs)
  = Returned (fs', None) →
  let run := main fuel env fs args in
  outcome run = Returned fs'
  ∧ last (trace run)
    = Some (EPrint "Failed to authenticate with Google Drive. Exiting.")
  ∧ Forall (λ c, c ∈ "os.getenv" :: credential_store_callees)
      (callees (trace run)).
Proof.
  intros Hkey Hauth run. unfold run. rewrite main_eq. cbv zeta.
  destruct (getenv env) as [key|]; [|done].
  cbn [truthy_option] in Hkey. rewrite Hkey, main_with_key_eq. cbv zeta.
  rewrite Hauth. cbn [trace outcome]. repeat split.
  - change (?a :: ?b :: ?t ++ [?x]) with ([a; b] ++ t ++ [x]).
    by rewrite !app_assoc, last_snoc.
  - change (callees (ECall ?c ?a :: EPrint ?l :: ?t ++ [EPrint ?l']))
      with (c :: callees (t ++ [EPrint l'])).
    rewrite callees_app, app_nil_r. constructor; [apply list_elem_of_here|].
    eapply Forall_impl; [apply credential_store_calls|].
    intros c Hc. by apply list_elem_of_further.
Qed.

Lemma X21_failed_authentication_stops_witness :
  let run :=
    main 10 (sample_environment (Some "KEY") sample_auth_world https_reference)
      no_files sample_args in
  outcome run = Returned no_files
  ∧ last (trace run)
    = Some (EPrint "Failed to authenticate with Google Drive. Exiting.")
  ∧ Forall (λ c, c ∈ "os.getenv" :: credential_store_callees)
      (callees (trace run)).
Proof.
  apply (X21_failed_authentication_stops 10
           (sample_environment (Some "KEY") sample_auth_world https_reference)
           no_files no_files sample_args); reflexivity.
Defined.

Lemma generator_pattern_no_upload (g : list string) (c : string) :
  g ∈ generator_call_patterns →
  c ∈ ["MediaIoUpload"; "files.create"; "request.next_chunk";
       "InstalledAppFlow.run_local_server"] →
  count_in c g = 0.
Proof.
  unfold generator_call_patterns. rewrite !elem_of_cons, !elem_of_nil.
  intros [-> | [-> | [-> | [-> | [-> | []]]]]] [-> | [-> | [-> | [-> | []]]]];
    reflexivity.
Qed.

Lemma credential_store_no_call (w : AuthWorld) (fs : FileSystem) (c : string) :
  c ∉ credential_store_callees →
  count_in c (callees (trace (get_google_drive_service w fs))) = 0.
Proof.
  intros Hc. apply count_in_absent. intros Hin.
  destruct (credential_store_calls w fs) as [Hall _].
  rewrite Forall_forall in Hall. by apply Hc, Hall.
Qed.

(** X22: with an API key and a Drive service, when the generation fails
    [main] stops after saying so: it returns normally and no upload is
    started, neither a media body nor a creation request. *)
Theorem X22_failed_generation_stops (fuel : nat) (env : Environment)
    (fs fs' : FileSystem) (args : Args) (gemini_api_key : string)
    (drive_service : DriveService) :
  getenv env = Some gemini_api_key →
  PyStr.truthy gemini_api_key = true →
  outcome (get_google_drive_service (credential_store env) fs)
  = Returned (fs', Some drive_service) →
  outcome (generate_veo_video (gemini env) (prompt args) gemini_api_key)
  = Returned (None, None) →
  let run := main fuel env fs args in
  outcome run = Returned fs'
  ∧ last (trace run)
    = Some (EPrint "Video generation or download failed. Exiting.")
  ∧ count_calls "MediaIoUpload" (trace run) = 0
  ∧ count_calls "files.create" (trace run) = 0.
Proof.
  intros Hkey Htruthy Hauth Hgen run. unfold run. rewrite main_eq. cbv zeta.
  rewrite Hkey, Htruthy, main_with_key_eq. cbv zeta. rewrite Hauth.
  cbv zeta. rewrite (generate_and_upload_failed _ _ _ _ _ Hgen).
  cbn [trace outcome].
  assert (Hcount : ∀ c,
    c ∈ ["MediaIoUpload"; "files.create"; "request.next_chunk";
         "InstalledAppFlow.run_local_server"] →
    c ∉ credential_store_callees →
    count_calls c
      (ECall "os.getenv" [GEMINI_API_KEY_ENV_VAR]
       :: EPrint "--- Authenticating with Google Drive ---"
       :: trace (get_google_drive_service (credential_store env) fs)
       ++ trace (generate_veo_video (gemini env) (prompt args) gemini_api_key)
       ++ [EPrint "Video generation or download failed. Exiting."]) = 0).
  { intros c Hc Hnc. rewrite count_calls_callees.
    change (callees (ECall ?c0 ?a :: EPrint ?l :: ?t)) with (c0 :: callees t).
    rewrite !callees_app, app_nil_r.
    change (?x :: ?l1 ++ ?l2) with ([x] ++ l1 ++ l2).
    rewrite !count_in_app, credential_store_no_call by done.
    rewrite (generator_pattern_no_upload _ _ (generate_veo_video_callees _ _ _) Hc).
    rewrite !elem_of_cons, elem_of_nil in Hc.
    by destruct Hc as [-> | [-> | [-> | [-> | []]]]]. }
  repeat split.
  - change (?a :: ?b :: ?t ++ ?t' ++ [?x]) with ([a; b] ++ t ++ t' ++ [x]).
    by rewrite !app_assoc, last_snoc.
  - apply Hcount; [in_list|]. unfold credential_store_callees.
    rewrite !elem_of_cons, elem_of_nil. intros H.
    repeat (destruct H as [H|H]; [discriminate H|]). done.
  - apply Hcount; [in_list|]. unfold credential_store_callees.
    rewrite !elem_of_cons, elem_of_nil. intros H.
    repeat (destruct H as [H|H]; [discriminate H|]). done.
Qed.

Lemma X22_failed_generation_stops_witness :
  let run :=
    main 10 (sample_environment (Some "KEY") sample_auth_world ftp_reference)
      (cached_token valid_credentials) sample_args in
  outcome run = Returned (cached_token valid_credentials)
  ∧ last (trace run)
    = Some (EPrint "Video generation or download failed. Exiting.")
  ∧ count_calls "MediaIoUpload" (trace run) = 0
  ∧ count_calls "files.create" (trace run) = 0.
Proof.
  apply (X22_failed_generation_stops 10
           (sample_environment (Some "KEY") sample_auth_world ftp_reference)
           (cached_token valid_credentials) (cached_token valid_credentials)
           sample_args "KEY" (five_chunks complete_response)); reflexivity.
Defined.

Lemma main_success_eq (fuel : nat) (env : Environment) (fs fs' : FileSystem)
    (args : Args) (gemini_api_key : string) (drive_service : DriveService)
    (video_bytes : list byte) (video_mime_type : string) :
  getenv env = Some gemini_api_key →
  PyStr.truthy gemini_api_key = true →
  outcome (get_google_drive_service (credential_store env) fs)
  = Returned (fs', Some drive_service) →
  outcome (generate_veo_video (gemini env) (prompt args) gemini_api_key)
  = Returned (Some video_bytes, Some video_mime_type) →
  let upload :=
    upload_to_drive fuel (Some drive_service)
      (determine_output_filename (output_filename args) (prompt args)
         video_mime_type (strftime env))
      video_bytes video_mime_type (folder_id args) in
  ∃ before,
    main fuel env fs args
    = Run (before ++ trace upload
           ++ match outcome upload with
              | Returned (Some link) =>
                  [EPrint (nl +:+
                     (if PyStr.truthy link
                      then "Process complete! Video available at: " +:+ link
                      else "Process completed, but upload to Drive may have failed or was skipped."))]
              | Returned None =>
                  [EPrint (nl +:+ "Process completed, but upload to Drive may have failed or was skipped.")]
              | _ => []
              end)
          match outcome upload with
          | Returned _ => Returned fs'
          | Raised e => Raised e
          | OutOfFuel => OutOfFuel
          end.
Proof.
  intros Hkey Htruthy Hauth Hgen upload.
  destruct (generate_veo_video_result (gemini env) (prompt args) gemini_api_key)
    as [Hnone | (b & bs & m & Hsome & Hm)]; [congruence|].
  rewrite Hgen in Hsome. injection Hsome as -> ->.
  rewrite main_eq. cbv zeta.
  rewrite Hkey, Htruthy, main_with_key_eq. cbv zeta. rewrite Hauth. cbv zeta.
  rewrite (generate_and_upload_success _ _ _ _ _ _ _ _ Hgen Hm). cbv zeta.
  fold upload. cbn [trace outcome].
  exists (ECall "os.getenv" [GEMINI_API_KEY_ENV_VAR]
          :: EPrint "--- Authenticating with Google Drive ---"
          :: trace (get_google_drive_service (credential_store env) fs)
          ++ trace (generate_veo_video (gemini env) (prompt args) gemini_api_key)
          ++ trace (choose_output_filename env args m)).
  f_equal.
  - rewrite <- !app_comm_cons. do 2 f_equal. rewrite <- !app_assoc.
    reflexivity.
  - destruct (outcome upload); reflexivity.
Qed.



(** X24: with an API key, a Drive service and a generated video, [main]
    returns normally whatever the upload returns, and its last line tells
    the two cases apart: the link when the upload returned a non-empty
    one, and otherwise that the upload may have failed. *)
Theorem X24_final_report (fuel : nat) (env : Environment)
    (fs fs' : FileSystem) (args : Args) (gemini_api_key : string)
    (drive_service : DriveService) (video_bytes : list byte)
    (video_mime_type : string) (upload_link : option string) :
  getenv env = Some gemini_api_key →
  PyStr.truthy gemini_api_key = true →
  outcome (get_google_drive_service (credential_store env) fs)
  = Returned (fs', Some drive_service) →
  outcome (generate_veo_video (gemini env) (prompt args) gemini_api_key)
  = Returned (Some video_bytes, Some video_mime_type) →
  outcome (upload_to_drive fuel (Some drive_service)
             (determine_output_filename (output_filename args) (prompt args)
                video_mime_type (strftime env))
             video_bytes video_mime_type (folder_id args))
  = Returned upload_link →
  let run := main fuel env fs args in
  outcome run = Returned fs'
  ∧ last (trace run)
    = Some (EPrint (nl +:+
              (if truthy_option upload_link
               then "Process complete! Video available at: "
                    +:+ PyStr.str_of_option upload_link
               else "Process completed, but upload to Drive may have failed or was skipped."))).
Proof.
  intros Hkey Htruthy Hauth Hgen Hup run. unfold run.
  destruct (main_success_eq fuel _ _ _ args _ _ _ _ Hkey Htruthy Hauth Hgen)
    as (before & ->).
  cbv zeta. rewrite Hup. cbn [trace outcome]. split; [done|].
  destruct upload_link as [link|]; cbn [truthy_option PyStr.str_of_option];
    by rewrite !app_assoc, last_snoc.
Qed.

Lemma X24_final_report_witness :
  let run :=
    main 10 (sample_environment (Some "KEY") sample_auth_world https_reference)
      (cached_token valid_credentials) sample_args in
  outcome run = Returned (cached_token valid_credentials)
  ∧ last (trace run)
    = Some (EPrint (nl +:+ "Process complete! Video available at: "
                    +:+ "https://drive.example/view")).
Proof.
  apply (X24_final_report 10
           (sample_environment (Some "KEY") sample_auth_world https_reference)
           (cached_token valid_credentials) (cached_token valid_credentials)
           sample_args "KEY" (five_chunks complete_response)
           [x00; x01; x02]%byte "video/webm" (Some "https://drive.example/view"));
    reflexivity.
Defined.

Lemma main_callees (fuel : nat) (env : Environment) (fs : FileSystem) (args : Args) :
  ∃ A G T U,
    callees (trace (main fuel env fs args)) = "os.getenv" :: A ++ G ++ T ++ U
    ∧ (A = [] ∨ A = callees (trace (get_google_drive_service
                                      (credential_store env) fs)))
    ∧ (G = [] ∨ G ∈ generator_call_patterns)
    ∧ (T = [] ∨ T = ["time.strftime"])
    ∧ (U = []
       ∨ ∃ n, U = "MediaIoUpload" :: "files.create"
                  :: replicate n "request.next_chunk").
Proof.
  rewrite main_eq. cbv zeta. cbn [trace].
  change (callees (ECall ?c ?a :: ?t)) with (c :: callees t).
  assert (Hnone : ∃ A G T U : list string,
    "os.getenv" :: callees (trace (missing_api_key;; mret fs))
    = "os.getenv" :: A ++ G ++ T ++ U
    ∧ (A = [] ∨ A = callees (trace (get_google_drive_service
                                      (credential_store env) fs)))
    ∧ (G = [] ∨ G ∈ generator_call_patterns)
    ∧ (T = [] ∨ T = ["time.strftime"])
    ∧ (U = [] ∨ ∃ n, U = "MediaIoUpload" :: "files.create"
                         :: replicate n "request.next_chunk")).
  { exists [], [], [], []. repeat split; auto. }
  destruct (getenv env) as [key|]; [|done].
  destruct (PyStr.truthy key); [|done].
  rewrite main_with_key_eq. cbv zeta.
  set (auth := get_google_drive_service (credential_store env) fs).
  destruct (outcome auth) as [[fs' [svc|]]|e|]; cbn [trace].
  2-4: exists (callees (trace auth)), [], [], [];
       change (callees (EPrint ?l :: ?t)) with (callees t);
       rewrite ?callees_app, ?app_nil_r; repeat split; auto.
  change (callees (EPrint ?l :: ?t)) with (callees t). rewrite callees_app.
  destruct (generate_veo_video_result (gemini env) (prompt args) key)
    as [Hfail | (b & bs & m & Hsome & Hm)].
  - rewrite (generate_and_upload_failed _ _ _ _ _ Hfail). cbn [trace].
    rewrite callees_app.
    exists (callees (trace auth)),
      (callees (trace (generate_veo_video (gemini env) (prompt args) key))),
      [], [].
    rewrite !app_nil_r. repeat split; auto.
    right. apply generate_veo_video_callees.
  - rewrite (generate_and_upload_success _ _ _ _ _ _ _ _ Hsome Hm). cbv zeta.
    cbn [trace]. rewrite !callees_app.
    destruct (choose_output_filename_eq env args m) as [_ HT].
    destruct (upload_to_drive_callees fuel svc
                (determine_output_filename (output_filename args) (prompt args)
                   m (strftime env)) (b :: bs) m (folder_id args))
      as (n & _ & HU).
    exists (callees (trace auth)),
      (callees (trace (generate_veo_video (gemini env) (prompt args) key))),
      (callees (trace (choose_output_filename env args m))),
      (callees (trace (upload_to_drive fuel (Some svc)
         (determine_output_filename (output_filename args) (prompt args) m
            (strftime env)) (b :: bs) m (folder_id args)))).
    repeat split; auto.
    + f_equal. f_equal. f_equal. f_equal.
      destruct (outcome (upload_to_drive _ _ _ _ _ _)) as [[link|]| |];
        by rewrite app_nil_r.
    + right. apply generate_veo_video_callees.
    + right. by exists n.
Qed.

Lemma count_in_replicate (c d : string) (n : nat) :
  c ≠ d → count_in c (replicate n d) = 0.
Proof.
  intros Hne. apply count_in_absent. intros Hin.
  apply elem_of_replicate in Hin as [-> _]. done.
Qed.

(** X25: in one run of [main] nothing is done twice, however the
    collaborators answer: at most one interactive grant, at most one
    generation request, at most one download, and at most one creation
    request on the Drive. *)
Theorem X25_nothing_is_repeated (fuel : nat) (env : Environment)
    (fs : FileSystem) (args : Args) :
  let run := main fuel env fs args in
  count_calls "InstalledAppFlow.run_local_server" (trace run) ≤ 1
  ∧ count_calls "model.generate_content" (trace run) ≤ 1
  ∧ count_calls "requests.get" (trace run)
    + count_calls "blob.download_as_bytes" (trace run) ≤ 1
  ∧ count_calls "files.create" (trace run) ≤ 1.
Proof.
  intros run. unfold run. rewrite !count_calls_callees.
  destruct (main_callees fuel env fs args)
    as (A & G & T & U & -> & HA & HG & HT & HU).
  change (?x :: ?l1 ++ ?l2) with ([x] ++ l1 ++ l2).
  rewrite !count_in_app.
  assert (HAflow : count_in "InstalledAppFlow.run_local_server" A ≤ 1).
  { destruct HA as [-> | ->]; [vm_compute; lia|apply credential_store_calls]. }
  assert (HAother : ∀ c, c ∉ credential_store_callees → count_in c A = 0).
  { intros c Hc. destruct HA as [-> | ->]; [done|].
    by apply credential_store_no_call. }
  assert (Hnot : ∀ c,
    c ∈ ["model.generate_content"; "requests.get"; "blob.download_as_bytes";
         "files.create"] → c ∉ credential_store_callees).
  { intros c Hc. rewrite !elem_of_cons, elem_of_nil in Hc.
    destruct Hc as [-> | [-> | [-> | [-> | []]]]];
      apply (bool_decide_unpack _); reflexivity. }
  rewrite (HAother "model.generate_content"), (HAother "requests.get"),
    (HAother "blob.download_as_bytes"), (HAother "files.create")
    by (apply Hnot; in_list).
  assert (HGc :
    count_in "InstalledAppFlow.run_local_server" G = 0
    ∧ count_in "model.generate_content" G ≤ 1
    ∧ count_in "requests.get" G + count_in "blob.download_as_bytes" G ≤ 1
    ∧ count_in "files.create" G = 0).
  { destruct HG as [-> | HG]; [vm_compute; lia|].
    unfold generator_call_patterns in HG.
    rewrite !elem_of_cons, elem_of_nil in HG.
    destruct HG as [-> | [-> | [-> | [-> | [-> | []]]]]]; vm_compute; lia. }
  assert (HTc : ∀ c, c ≠ "time.strftime" → count_in c T = 0).
  { intros c Hc. apply count_in_absent.
    destruct HT as [-> | ->]; [apply not_elem_of_nil|].
    rewrite elem_of_cons, elem_of_nil. intros [-> | []]. done. }
  rewrite !HTc by done.
  assert (HUc :
    count_in "InstalledAppFlow.run_local_server" U = 0
    ∧ count_in "model.generate_content" U = 0
    ∧ count_in "requests.get" U = 0
    ∧ count_in "blob.download_as_bytes" U = 0
    ∧ count_in "files.create" U ≤ 1).
  { destruct HU as [-> | [n ->]]; [vm_compute; lia|].
    change (?a :: ?b :: ?l) with ([a; b] ++ l).
    rewrite !count_in_app, !count_in_replicate by done. vm_compute. lia. }
  destruct HGc as (-> & ? & ? & ->), HUc as (-> & -> & -> & -> & ?).
  change (count_in ?c ["os.getenv"]) with 0.
  lia.
Qed.

(** ** The subtype of a content type *)

Lemma split_no_separator (sep : ascii) (s : string) :
  contains sep s = false → PyStr.split sep s = [s].
Proof.
  induction s as [|c s IH]; [done|]. simpl.
  intros [Hc Hs]%orb_false_iff. by rewrite Hc, IH.
Qed.

Lemma split_cons_separator (sep : ascii) (s : string) :
  PyStr.split sep (String sep s) = "" :: PyStr.split sep s.
Proof. simpl. by rewrite Ascii.eqb_refl. Qed.

Lemma split_not_nil (sep : ascii) (s : string) : PyStr.split sep s ≠ [].
Proof.
  destruct s as [|c s]; [done|]. simpl.
  destruct (Ascii.eqb c sep); [done|]. by destruct (PyStr.split sep s).
Qed.

Lemma last_item_cons (x y : string) (l : list string) :
  PyStr.last_item (x :: y :: l) = PyStr.last_item (y :: l).
Proof. done. Qed.

Lemma last_item_split_app (sep : ascii) (a b : string) :
  PyStr.last_item (PyStr.split sep (a +:+ String sep b))
  = PyStr.last_item (PyStr.split sep b)
  ∧ ∃ x y l, PyStr.split sep (a +:+ String sep b) = x :: y :: l.
Proof.
  induction a as [|c a [IH (x & y & l & Hl)]].
  - rewrite app_nil_l, split_cons_separator.
    destruct (PyStr.split sep b) as [|y l] eqn:E; [by apply split_not_nil in E|].
    split; [done|]. by exists "", y, l.
  - rewrite app_cons. cbn [PyStr.split]. rewrite Hl in *.
    destruct (Ascii.eqb c sep).
    + split; [by rewrite <- IH|]. by exists "", x, (y :: l).
    + split; [by rewrite <- IH|]. by exists (String c x), y, l.
Qed.

(** X26: the subtype read from a content type is the text after its last
    slash, and the whole text when it has no slash: for [b] without a slash,
    both [a/b] (whatever [a] holds, slashes included) and [b] alone give
    [b]. *)
Theorem X26_subtype_is_text_after_last_slash (a b : string) :
  contains "/" b = false →
  mime_subtype (a +:+ "/" +:+ b) = b ∧ mime_subtype b = b.
Proof.
  intros Hb. unfold mime_subtype.
  change (a +:+ "/" +:+ b) with (a +:+ String "/" b).
  destruct (last_item_split_app "/" a b) as [-> _].
  by rewrite (split_no_separator _ _ Hb).
Qed.

Lemma X26_subtype_is_text_after_last_slash_witness :
  mime_subtype ("application/x" +:+ "/" +:+ "webm") = "webm"
  ∧ mime_subtype "webm" = "webm".
Proof.
  apply (X26_subtype_is_text_after_last_slash "application/x" "webm").
  reflexivity.
Defined.
